(** * nanodep / godep: the profile operations of the DEP client

    A shallow embedding of [godep/profile.go] (the [Profile] payload, the
    three response structures and the operations [AssignProfile],
    [DefineProfile] and [RemoveProfile]) together with the parts of the
    client the operations run on.

    Layout:
    - [Json]      JSON documents, association lookup, a text reader and
                  the grammar of the texts it reads;
    - [Go]        the Go values the code uses (slices, pointers, zero
                  values) and the rules of [encoding/json] the struct tags
                  rely on ([omitempty], key matching);
    - [http]      the [net/http] constants the operations name;
    - [godep]     the structures and operations of [profile.go], written
                  over an executor interface (the receiver's [do] method);
    - [Core]      the session manager, request executor and response
                  decoder the operations are run through;
    - [Double]    a scripted stand-in for the remote service;
    - the theorems. *)

From Stdlib Require Import String Ascii List ZArith NArith Bool Lia.
From stdpp Require Import base option list gmap strings.

Local Open Scope string_scope.
Local Open Scope list_scope.

(* ===================================================================== *)
(** * JSON documents                                                      *)
(* ===================================================================== *)

Module Json.

(** A JSON document.  Object members are kept in the order in which they
    are written, numbers keep their literal. *)
#[local] Unset Elimination Schemes.
Inductive json : Type :=
| JNull
| JBool (b : bool)
| JNumber (lit : string)
| JString (s : string)
| JArray (xs : list json)
| JObject (kvs : list (string * json)).
#[local] Set Elimination Schemes.

(** The first member of an object with the given name. *)
Fixpoint assoc (k : string) (kvs : list (string * json)) : option json :=
  match kvs with
  | [] => None
  | (k', v) :: rest => if String.eqb k k' then Some v else assoc k rest
  end.

(** The members of a document: those of the object, none otherwise. *)
Definition members (j : json) : list (string * json) :=
  match j with
  | JObject kvs => kvs
  | _ => []
  end.

(** The member names of a document, in order. *)
Definition keys (j : json) : list string := map fst (members j).

(** The member [k] of the document [j]. *)
Definition get (k : string) (j : json) : option json := assoc k (members j).

(** ** Reading a document from text

    The reader follows the JSON grammar as [encoding/json] checks it: one
    value, surrounded by optional white space, nothing after it, arrays
    and objects nested at most 10000 deep.  Strings are unquoted the way
    the decoder does it: escapes resolved, [\u] escapes written out in
    UTF-8, a surrogate without its partner and every byte that is not
    part of a well-formed UTF-8 sequence replaced by U+FFFD. *)

Definition dquote : ascii := "034"%char.
Definition backslash : ascii := "092"%char.

Definition is_space (c : ascii) : bool :=
  Ascii.eqb c " " || Ascii.eqb c "009" || Ascii.eqb c "010" || Ascii.eqb c "013".

Fixpoint skip_ws (s : string) : string :=
  match s with
  | String c rest => if is_space c then skip_ws rest else s
  | EmptyString => s
  end.

Definition is_digit (c : ascii) : bool :=
  let n := N_of_ascii c in (48 <=? n)%N && (n <=? 57)%N.

Definition hex_val (c : ascii) : option N :=
  let n := N_of_ascii c in
  if (48 <=? n)%N && (n <=? 57)%N then Some (n - 48)%N
  else if (97 <=? n)%N && (n <=? 102)%N then Some (n - 87)%N
  else if (65 <=? n)%N && (n <=? 70)%N then Some (n - 55)%N
  else None.

Definition byte (n : N) : string := String (ascii_of_N n) EmptyString.

(** The UTF-8 encoding of a code point. *)
Definition utf8 (cp : N) : string :=
  if (cp <? 0x80)%N then byte cp
  else if (cp <? 0x800)%N then
    byte (0xC0 + cp / 0x40) +:+ byte (0x80 + cp mod 0x40)
  else if (cp <? 0x10000)%N then
    byte (0xE0 + cp / 0x1000) +:+ byte (0x80 + (cp / 0x40) mod 0x40)
      +:+ byte (0x80 + cp mod 0x40)
  else
    byte (0xF0 + cp / 0x40000) +:+ byte (0x80 + (cp / 0x1000) mod 0x40)
      +:+ byte (0x80 + (cp / 0x40) mod 0x40) +:+ byte (0x80 + cp mod 0x40).

Definition replacement : string := utf8 0xFFFD.

Definition is_high (u : N) : bool := (0xD800 <=? u)%N && (u <? 0xDC00)%N.
Definition is_low (u : N) : bool := (0xDC00 <=? u)%N && (u <? 0xE000)%N.
Definition pair_up (h l : N) : N :=
  (0x10000 + (h - 0xD800) * 0x400 + (l - 0xDC00))%N.

(** The character a one-letter escape stands for. *)
Definition simple_escape (c : ascii) : option ascii :=
  if Ascii.eqb c dquote then Some dquote
  else if Ascii.eqb c backslash then Some backslash
  else if Ascii.eqb c "/" then Some "/"%char
  else if Ascii.eqb c "b" then Some "008"%char
  else if Ascii.eqb c "f" then Some "012"%char
  else if Ascii.eqb c "n" then Some "010"%char
  else if Ascii.eqb c "r" then Some "013"%char
  else if Ascii.eqb c "t" then Some "009"%char
  else None.

Definition in_range (lo hi n : N) : bool := (lo <=? n)%N && (n <=? hi)%N.

(** A continuation byte of a UTF-8 sequence. *)
Definition is_cont (c : ascii) : bool := in_range 0x80 0xBF (N_of_ascii c).

(** Whether [c] may follow the first byte [n0] of a sequence of three or
    four bytes: the ranges that exclude over-long forms, surrogates and
    code points above U+10FFFF. *)
Definition second_ok (n0 : N) (c : ascii) : bool :=
  let n := N_of_ascii c in
  if (n0 =? 0xE0)%N then in_range 0xA0 0xBF n
  else if (n0 =? 0xED)%N then in_range 0x80 0x9F n
  else if (n0 =? 0xF0)%N then in_range 0x90 0xBF n
  else if (n0 =? 0xF4)%N then in_range 0x80 0x8F n
  else in_range 0x80 0xBF n.

(** The string with every byte that does not belong to a well-formed
    UTF-8 sequence replaced by U+FFFD, byte by byte, as [encoding/json]
    does both when it writes a string and when it unquotes one. *)
Fixpoint toValidUTF8 (s : string) : string :=
  match s with
  | EmptyString => EmptyString
  | String b0 r0 =>
    let n0 := N_of_ascii b0 in
    if (n0 <? 0x80)%N then String b0 (toValidUTF8 r0)
    else
      match r0 with
      | EmptyString => replacement
      | String b1 r1 =>
        if in_range 0xC2 0xDF n0 && is_cont b1 then
          String b0 (String b1 (toValidUTF8 r1))
        else
          match r1 with
          | EmptyString => replacement +:+ toValidUTF8 r0
          | String b2 r2 =>
            if in_range 0xE0 0xEF n0 && second_ok n0 b1 && is_cont b2 then
              String b0 (String b1 (String b2 (toValidUTF8 r2)))
            else
              match r2 with
              | EmptyString => replacement +:+ toValidUTF8 r0
              | String b3 r3 =>
                if in_range 0xF0 0xF4 n0 && second_ok n0 b1 && is_cont b2
                   && is_cont b3
                then
                  String b0 (String b1 (String b2 (String b3 (toValidUTF8 r3))))
                else replacement +:+ toValidUTF8 r0
              end
          end
      end
  end.

(** A document as it is read: every string, member names included,
    made valid UTF-8. *)
Fixpoint canon (j : json) : json :=
  match j with
  | JString s => JString (toValidUTF8 s)
  | JArray xs => JArray (map canon xs)
  | JObject kvs =>
    JObject (map (fun kv => let '(k, v) := kv in (toValidUTF8 k, canon v)) kvs)
  | _ => j
  end.

(** Where the string reader stands: between characters, after a
    backslash, or inside a [\u] escape with [k] digits still to come. *)
Inductive lex_state : Type :=
| Plain
| Escape
| Hex (k : nat) (acc : N).

Definition emit {A : Type} (pre : string) (r : option (string * A))
  : option (string * A) :=
  match r with
  | Some (d, rest) => Some (pre +:+ d, rest)
  | None => None
  end.

(** A pending high surrogate that found no partner. *)
Definition flush (hi : option N) : string :=
  match hi with
  | Some _ => replacement
  | None => EmptyString
  end.

(** [unquote st hi s] resolves the escapes of a string literal whose
    opening quote is already consumed, giving the bytes of its contents
    and the text after the closing quote.  [hi] is a high surrogate
    waiting for its partner. *)
Fixpoint unquote (st : lex_state) (hi : option N) (s : string)
  : option (string * string) :=
  match s with
  | EmptyString => None
  | String c rest =>
    match st with
    | Plain =>
      if Ascii.eqb c backslash then unquote Escape hi rest
      else if Ascii.eqb c dquote then Some (flush hi, rest)
      else if (N_of_ascii c <? 0x20)%N then None
      else emit (flush hi +:+ String c EmptyString) (unquote Plain None rest)
    | Escape =>
      if Ascii.eqb c "u" then unquote (Hex 4 0) hi rest
      else
        match simple_escape c with
        | Some e =>
          emit (flush hi +:+ String e EmptyString) (unquote Plain None rest)
        | None => None
        end
    | Hex k acc =>
      match hex_val c with
      | None => None
      | Some d =>
        let u := (acc * 16 + d)%N in
        match k with
        | S (S k') => unquote (Hex (S k') u) hi rest
        | _ =>
          match hi with
          | Some h =>
            if is_low u then
              emit (utf8 (pair_up h u)) (unquote Plain None rest)
            else if is_high u then
              emit replacement (unquote Plain (Some u) rest)
            else emit (replacement +:+ utf8 u) (unquote Plain None rest)
          | None =>
            if is_high u then unquote Plain (Some u) rest
            else if is_low u then
              emit replacement (unquote Plain None rest)
            else emit (utf8 u) (unquote Plain None rest)
          end
        end
      end
    end
  end.

(** [read_string st hi s] reads a string literal: its escapes resolved,
    and what is not well-formed UTF-8 in the result replaced.  (An escape
    always resolves to whole sequences, so the bytes it gives never
    complete or break a sequence of the bytes written next to it.) *)
Definition read_string (st : lex_state) (hi : option N) (s : string)
  : option (string * string) :=
  match unquote st hi s with
  | Some (d, rest) => Some (toValidUTF8 d, rest)
  | None => None
  end.

(** The longest run of digits at the head of the text. *)
Fixpoint digits (s : string) : string * string :=
  match s with
  | String c rest =>
    if is_digit c then let '(d, r) := digits rest in (String c d, r)
    else (EmptyString, s)
  | EmptyString => (EmptyString, s)
  end.

Definition digits1 (s : string) : option (string * string) :=
  match digits s with
  | (EmptyString, _) => None
  | (d, r) => Some (d, r)
  end.

Definition sign (s : string) : string * string :=
  match s with
  | String c rest =>
    if Ascii.eqb c "-" || Ascii.eqb c "+" then (String c EmptyString, rest)
    else (EmptyString, s)
  | EmptyString => (EmptyString, s)
  end.

(** A number literal: an optional minus; a zero, or a digit other than
    zero followed by digits; optionally a point and digits; optionally an
    exponent mark, a sign and digits.  Each part gives what it took and
    the text after it. *)
Definition minus (s : string) : string * string :=
  match s with
  | String c rest =>
    if Ascii.eqb c "-" then (String c EmptyString, rest) else (EmptyString, s)
  | EmptyString => (EmptyString, s)
  end.

Definition int (s : string) : option (string * string) :=
  match s with
  | String c rest =>
    if Ascii.eqb c "0" then Some (String c EmptyString, rest)
    else digits1 s
  | EmptyString => None
  end.

Definition frac (s : string) : option (string * string) :=
  match s with
  | String c rest =>
    if Ascii.eqb c "." then emit (String c EmptyString) (digits1 rest)
    else Some (EmptyString, s)
  | EmptyString => Some (EmptyString, s)
  end.

Definition exp (s : string) : option (string * string) :=
  match s with
  | String c rest =>
    if Ascii.eqb c "e" || Ascii.eqb c "E" then
      let '(sg, r) := sign rest in
      emit (String c sg) (digits1 r)
    else Some (EmptyString, s)
  | EmptyString => Some (EmptyString, s)
  end.

Definition read_number (s : string) : option (string * string) :=
  let '(m, s1) := minus s in
  match int s1 with
  | None => None
  | Some (i, s2) =>
    match frac s2 with
    | None => None
    | Some (f, s3) =>
      match exp s3 with
      | None => None
      | Some (e, s4) => Some (m +:+ i +:+ f +:+ e, s4)
      end
    end
  end.

(** [strip p s]: the text after the prefix [p] of [s]. *)
Fixpoint strip (p s : string) : option string :=
  match p, s with
  | EmptyString, _ => Some s
  | String a p', String b s' => if Ascii.eqb a b then strip p' s' else None
  | String _ _, EmptyString => None
  end.

Definition literal (word : string) (v : json) (s : string)
  : option (json * string) :=
  match strip word s with
  | Some rest => Some (v, rest)
  | None => None
  end.

(** The deepest nesting of arrays and objects the reader accepts. *)
Definition maxNestingDepth : N := 10000.

(** One value at the head of the text, with the text after it.  The fuel
    bounds the calls below one another; [d] is the number of arrays and
    objects the value stands in. *)
Fixpoint value (fuel : nat) (d : N) (s : string) {struct fuel}
  : option (json * string) :=
  match fuel with
  | 0 => None
  | S n =>
    match skip_ws s with
    | EmptyString => None
    | String c rest =>
      if Ascii.eqb c "{" then
        if (d <? maxNestingDepth)%N then
          match skip_ws rest with
          | EmptyString => None
          | String c' rest' =>
            if Ascii.eqb c' "}" then Some (JObject [], rest')
            else
              match pairs n (d + 1) (String c' rest') with
              | Some (kvs, r) => Some (JObject kvs, r)
              | None => None
              end
          end
        else None
      else if Ascii.eqb c "[" then
        if (d <? maxNestingDepth)%N then
          match skip_ws rest with
          | EmptyString => None
          | String c' rest' =>
            if Ascii.eqb c' "]" then Some (JArray [], rest')
            else
              match elements n (d + 1) (String c' rest') with
              | Some (xs, r) => Some (JArray xs, r)
              | None => None
              end
          end
        else None
      else if Ascii.eqb c dquote then
        match read_string Plain None rest with
        | Some (str, r) => Some (JString str, r)
        | None => None
        end
      else if Ascii.eqb c "t" then literal "true" (JBool true) (String c rest)
      else if Ascii.eqb c "f" then literal "false" (JBool false) (String c rest)
      else if Ascii.eqb c "n" then literal "null" JNull (String c rest)
      else
        match read_number (String c rest) with
        | Some (lit, r) => Some (JNumber lit, r)
        | None => None
        end
    end
  end
with elements (fuel : nat) (d : N) (s : string) {struct fuel}
  : option (list json * string) :=
  match fuel with
  | 0 => None
  | S n =>
    match value n d s with
    | None => None
    | Some (v, r) =>
      match skip_ws r with
      | EmptyString => None
      | String c r' =>
        if Ascii.eqb c "," then
          match elements n d r' with
          | Some (xs, r'') => Some (v :: xs, r'')
          | None => None
          end
        else if Ascii.eqb c "]" then Some ([v], r')
        else None
      end
    end
  end
with pairs (fuel : nat) (d : N) (s : string) {struct fuel}
  : option (list (string * json) * string) :=
  match fuel with
  | 0 => None
  | S n =>
    match skip_ws s with
    | EmptyString => None
    | String q r0 =>
      if Ascii.eqb q dquote then
        match read_string Plain None r0 with
        | None => None
        | Some (k, r1) =>
          match skip_ws r1 with
          | EmptyString => None
          | String colon r2 =>
            if Ascii.eqb colon ":" then
              match value n d r2 with
              | None => None
              | Some (v, r3) =>
                match skip_ws r3 with
                | EmptyString => None
                | String c r4 =>
                  if Ascii.eqb c "," then
                    match pairs n d r4 with
                    | Some (kvs, r5) => Some ((k, v) :: kvs, r5)
                    | None => None
                    end
                  else if Ascii.eqb c "}" then Some ([(k, v)], r4)
                  else None
                end
              end
            else None
          end
        end
      else None
    end
  end.

(** The document a text holds, if it holds exactly one. *)
Definition parse (s : string) : option json :=
  match value (2 * String.length s + 2) 0 s with
  | Some (j, rest) =>
    match skip_ws rest with
    | EmptyString => Some j
    | String _ _ => None
    end
  | None => None
  end.

(** ** The texts of a document

    What the grammar lets stand for a document, stated apart from the
    reader: white space at will between the tokens; in a string, a
    character written as it is (when it is not a quote, a backslash or a
    control character), by its one-letter escape, or by a [\u] escape of
    a code point that is not a surrogate. *)

Fixpoint blank (ws : string) : bool :=
  match ws with
  | EmptyString => true
  | String c rest => is_space c && blank rest
  end.

(** A number literal: one the number reader takes whole. *)
Definition is_number (lit : string) : bool :=
  match read_number lit with
  | Some (l, EmptyString) => String.eqb l lit
  | _ => false
  end.

(** What may stand after a value: nothing, white space, a comma or a
    closing bracket or brace. *)
Definition ends_value (rest : string) : bool :=
  match rest with
  | EmptyString => true
  | String c _ =>
    is_space c || Ascii.eqb c "," || Ascii.eqb c "]" || Ascii.eqb c "}"
  end.

Definition literal_ok (c : ascii) : bool :=
  negb (Ascii.eqb c backslash) && negb (Ascii.eqb c dquote)
  && negb (N_of_ascii c <? 0x20)%N.

(** The code unit four hexadecimal digits write. *)
Definition hex4 (a b c d : ascii) : option N :=
  match hex_val a, hex_val b, hex_val c, hex_val d with
  | Some w, Some x, Some y, Some z =>
    Some ((((0 * 16 + w) * 16 + x) * 16 + y) * 16 + z)%N
  | _, _, _, _ => None
  end.

(** [Quoted s t]: between its quotes, the text [t] writes the bytes
    [s]. *)
Inductive Quoted : string -> string -> Prop :=
| Q_end : Quoted EmptyString EmptyString
| Q_literal (c : ascii) (s t : string) :
    literal_ok c = true -> Quoted s t -> Quoted (String c s) (String c t)
| Q_escape (c e : ascii) (s t : string) :
    simple_escape e = Some c -> Quoted s t ->
    Quoted (String c s) (String backslash (String e t))
| Q_hex (a b c d : ascii) (u : N) (s t : string) :
    hex4 a b c d = Some u -> is_high u = false -> is_low u = false ->
    Quoted s t ->
    Quoted (utf8 u +:+ s)
           (String backslash (String "u" (String a (String b (String c
              (String d t)))))).

(** [Denotes d t j]: the text [t], without white space around it, writes
    the document [j] inside [d] arrays and objects.  [Elems] and [Pairs]
    are the same for what stands between the brackets of an array and the
    braces of an object, the closing one included. *)
Inductive Denotes : N -> string -> json -> Prop :=
| D_null (d : N) : Denotes d "null" JNull
| D_true (d : N) : Denotes d "true" (JBool true)
| D_false (d : N) : Denotes d "false" (JBool false)
| D_number (d : N) (lit : string) :
    is_number lit = true -> Denotes d lit (JNumber lit)
| D_string (d : N) (s t : string) :
    Quoted s t ->
    Denotes d (String dquote (t +:+ String dquote EmptyString)) (JString s)
| D_array_empty (d : N) (ws : string) :
    (d < maxNestingDepth)%N -> blank ws = true ->
    Denotes d ("[" +:+ ws +:+ "]") (JArray [])
| D_array (d : N) (ws : string) (xs : list json) (t : string) :
    (d < maxNestingDepth)%N -> blank ws = true -> Elems (d + 1) xs t ->
    Denotes d ("[" +:+ ws +:+ t) (JArray xs)
| D_object_empty (d : N) (ws : string) :
    (d < maxNestingDepth)%N -> blank ws = true ->
    Denotes d ("{" +:+ ws +:+ "}") (JObject [])
| D_object (d : N) (ws : string) (kvs : list (string * json)) (t : string) :
    (d < maxNestingDepth)%N -> blank ws = true -> Pairs (d + 1) kvs t ->
    Denotes d ("{" +:+ ws +:+ t) (JObject kvs)
with Elems : N -> list json -> string -> Prop :=
| E_last (d : N) (x : json) (t ws : string) :
    Denotes d t x -> blank ws = true ->
    Elems d [x] (t +:+ ws +:+ "]")
| E_more (d : N) (x : json) (t ws ws' : string) (xs : list json)
    (t' : string) :
    Denotes d t x -> blank ws = true -> blank ws' = true -> Elems d xs t' ->
    Elems d (x :: xs) (t +:+ ws +:+ "," +:+ ws' +:+ t')
with Pairs : N -> list (string * json) -> string -> Prop :=
| P_last (d : N) (k tk ws1 ws2 : string) (v : json) (tv ws3 : string) :
    Quoted k tk -> blank ws1 = true -> blank ws2 = true ->
    Denotes d tv v -> blank ws3 = true ->
    Pairs d [(k, v)]
          (String dquote (tk +:+ String dquote (ws1 +:+ ":" +:+ ws2 +:+ tv
                                                 +:+ ws3 +:+ "}")))
| P_more (d : N) (k tk ws1 ws2 : string) (v : json) (tv ws3 ws4 : string)
    (kvs : list (string * json)) (t' : string) :
    Quoted k tk -> blank ws1 = true -> blank ws2 = true ->
    Denotes d tv v -> blank ws3 = true -> blank ws4 = true ->
    Pairs d kvs t' ->
    Pairs d ((k, v) :: kvs)
          (String dquote (tk +:+ String dquote (ws1 +:+ ":" +:+ ws2 +:+ tv
                                                 +:+ ws3 +:+ "," +:+ ws4
                                                 +:+ t'))).

Scheme Denotes_mut := Minimality for Denotes Sort Prop
  with Elems_mut := Minimality for Elems Sort Prop
  with Pairs_mut := Minimality for Pairs Sort Prop.
Combined Scheme Denotes_Elems_Pairs from Denotes_mut, Elems_mut, Pairs_mut.

(** [Text t j]: the whole text [t] writes the document [j]. *)
Definition Text (t : string) (j : json) : Prop :=
  exists ws t0 ws',
    blank ws = true /\ blank ws' = true /\ Denotes 0 t0 j
    /\ t = ws +:+ t0 +:+ ws'.

(** JSON text is written in this file with apostrophes where the quote
    goes; [wire] puts the quotes in. *)
Fixpoint wire (s : string) : string :=
  match s with
  | EmptyString => EmptyString
  | String c rest =>
    String (if Ascii.eqb c "'" then dquote else c) (wire rest)
  end.

End Json.
Export Json.

(* ===================================================================== *)
(** * Go values and [encoding/json]                                       *)
(* ===================================================================== *)

Module Go.

(** A slice is [nil] or a (possibly empty) sequence of elements: the two
    differ in their JSON encoding ([null] against [[]]). *)
Definition slice (A : Type) : Type := option (list A).

Definition len {A : Type} (s : slice A) : nat :=
  match s with
  | None => 0
  | Some l => length l
  end.

(** A pointer is [nil] or the address of a value; the value stands for the
    cell it points to. *)
Definition ptr (A : Type) : Type := option A.

(** The zero value of a type: what [new(T)] and an unset field hold. *)
Class Zero (A : Type) : Type := zero : A.
#[global] Hint Mode Zero ! : typeclass_instances.

#[global] Instance string_zero : Zero string := "".
#[global] Instance bool_zero : Zero bool := false.
#[global] Instance slice_zero {A : Type} : Zero (slice A) := None.
#[global] Instance gmap_zero {V : Type} : Zero (gmap string V) :=
  (∅ : gmap string V).

(** [json.Marshal]: the document a value is encoded as.  None of the types
    of this package can fail to encode.  A string is written with every
    byte that is not well-formed UTF-8 replaced by U+FFFD. *)
Class Marshaler (A : Type) : Type := MarshalJSON : A -> json.
#[global] Hint Mode Marshaler ! : typeclass_instances.

#[global] Instance string_marshal : Marshaler string :=
  fun s => JString (toValidUTF8 s).
#[global] Instance bool_marshal : Marshaler bool := JBool.
#[global] Instance slice_marshal {A : Type} `{Marshaler A} : Marshaler (slice A) :=
  fun s =>
    match s with
    | None => JNull
    | Some l => JArray (map MarshalJSON l)
    end.
#[global] Instance ptr_marshal {A : Type} `{Marshaler A} : Marshaler (ptr A) | 10 :=
  fun p =>
    match p with
    | None => JNull
    | Some v => MarshalJSON v
    end.

(** [omitempty] leaves a field out when it is empty: [false], a nil
    pointer, or an array, slice, map or string of length zero. *)
Class Emptiness (A : Type) : Type := isEmptyValue : A -> bool.
#[global] Hint Mode Emptiness ! : typeclass_instances.

#[global] Instance string_empty : Emptiness string :=
  fun s => Nat.eqb (String.length s) 0.
#[global] Instance bool_empty : Emptiness bool := negb.
#[global] Instance slice_empty {A : Type} : Emptiness (slice A) :=
  fun s => Nat.eqb (len s) 0.

(** The members one struct field contributes to the encoding of its
    struct: tagged [`json:"key"`] and tagged [`json:"key,omitempty"`]. *)
Definition field {A : Type} `{Marshaler A} (key : string) (v : A)
  : list (string * json) :=
  [(key, MarshalJSON v)].

Definition field_omitempty {A : Type} `{Marshaler A} `{Emptiness A}
    (key : string) (v : A) : list (string * json) :=
  if isEmptyValue v then [] else [(key, MarshalJSON v)].

(** [json.Unmarshal] into a value of the type: the document and the value
    already held give the new value, or the decoding fails. *)
Class Unmarshaler (V : Type) : Type := UnmarshalJSON : json -> V -> option V.
#[global] Hint Mode Unmarshaler ! : typeclass_instances.

(** [null] leaves a string or a boolean as it is. *)
#[global] Instance string_unmarshal : Unmarshaler string :=
  fun j old =>
    match j with
    | JString s => Some s
    | JNull => Some old
    | _ => None
    end.
#[global] Instance bool_unmarshal : Unmarshaler bool :=
  fun j old =>
    match j with
    | JBool b => Some b
    | JNull => Some old
    | _ => None
    end.

(** One member of an object read into a map: the element starts from the
    zero value and is stored under the member's name, over what the map
    held there. *)
Definition store_member {V : Type} `{Unmarshaler V} `{Zero V}
    (acc : option (gmap string V)) (kv : string * json)
  : option (gmap string V) :=
  match acc with
  | None => None
  | Some m =>
    match UnmarshalJSON (snd kv) zero with
    | Some v => Some (<[fst kv := v]> m)
    | None => None
    end
  end.

(** A map takes the members of an object in order, keeping the entries
    it already had; [null] makes it nil. *)
#[global] Instance map_unmarshal {V : Type} `{Unmarshaler V} `{Zero V}
  : Unmarshaler (gmap string V) :=
  fun j old =>
    match j with
    | JObject kvs => fold_left store_member kvs (Some old)
    | JNull => Some (∅ : gmap string V)
    | _ => None
    end.

(** The elements of an array read in order, each into the element the
    slice already has at its index, or into a zero value where the slice
    is shorter. *)
Fixpoint unmarshal_elements {A : Type} `{Unmarshaler A} `{Zero A}
    (xs : list json) (old : list A) : option (list A) :=
  match xs with
  | [] => Some []
  | x :: rest =>
    match UnmarshalJSON x (hd zero old), unmarshal_elements rest (tl old) with
    | Some v, Some vs => Some (v :: vs)
    | _, _ => None
    end
  end.

(** A slice takes the elements of an array, one by one over the elements
    it holds, and ends with the length of the array; an empty array makes
    it empty and [null] makes it nil.  A slice is its elements here: it
    has no spare capacity, so an element past its length starts from the
    zero value, and what a shortened slice leaves behind is not kept. *)
#[global] Instance slice_unmarshal {A : Type} `{Unmarshaler A} `{Zero A}
  : Unmarshaler (slice A) :=
  fun j old =>
    match j with
    | JArray xs =>
      match unmarshal_elements xs (default [] old) with
      | Some vs => Some (Some vs)
      | None => None
      end
    | JNull => Some None
    | _ => None
    end.

Definition upper (c : ascii) : ascii :=
  let n := N_of_ascii c in
  if (97 <=? n)%N && (n <=? 122)%N then ascii_of_N (n - 32) else c.

(** The folded form of a member name, under which names are compared
    when no field has the exact name: ASCII letters in upper case, and
    the two letters outside ASCII that fold to an ASCII one (U+017F to S,
    U+212A to K) replaced by it. *)
Fixpoint foldName (s : string) : string :=
  match s with
  | EmptyString => EmptyString
  | String c rest =>
    match rest with
    | EmptyString => String (upper c) EmptyString
    | String c2 rest2 =>
      if Ascii.eqb c "197" && Ascii.eqb c2 "191" then
        String "S" (foldName rest2)
      else
        match rest2 with
        | EmptyString => String (upper c) (foldName rest)
        | String c3 rest3 =>
          if Ascii.eqb c "226" && Ascii.eqb c2 "132" && Ascii.eqb c3 "170"
          then String "K" (foldName rest3)
          else String (upper c) (foldName rest)
        end
    end
  end.

(** The field a member name selects among the tagged names of a struct:
    the one with exactly that name, else the first with the same folded
    name, else none (the member is skipped). *)
Definition select (names : list string) (key : string) : option string :=
  match find (String.eqb key) names with
  | Some n => Some n
  | None => find (fun n => String.eqb (foldName n) (foldName key)) names
  end.

Definition store_field {V : Type} (names : list string)
    (set : string -> json -> V -> option V)
    (acc : option V) (kv : string * json) : option V :=
  match acc with
  | None => None
  | Some v =>
    match select names (fst kv) with
    | Some n => set n (snd kv) v
    | None => Some v
    end
  end.

(** A struct takes the members of an object in order, each into the
    field it selects; [null] leaves the struct as it is. *)
Definition unmarshal_struct {V : Type} (names : list string)
    (set : string -> json -> V -> option V) : Unmarshaler V :=
  fun j old =>
    match j with
    | JObject kvs => fold_left (store_field names set) kvs (Some old)
    | JNull => Some old
    | _ => None
    end.

(** Whether a member is read into some field of a struct with the given
    tagged names, or skipped. *)
Definition selects (names : list string) (kv : string * json) : bool :=
  match select names (fst kv) with
  | Some _ => true
  | None => false
  end.

(** A slice as [omitempty] lets it through: an empty slice is left out of
    the encoding, and what is left out is nil when read back. *)
Definition trim {A : Type} (s : slice A) : slice A :=
  match s with
  | Some [] => None
  | _ => s
  end.

(** A slice of strings as the encoder writes it: every element made
    valid UTF-8. *)
Definition written (s : slice string) : slice string :=
  option_map (map toValidUTF8) s.

End Go.
Export Go.

(* ===================================================================== *)
(** * [net/http]                                                          *)
(* ===================================================================== *)

Module http.

(** The method names of [net/http] that the package uses. *)
Definition MethodPost : string := "POST".
Definition MethodPut : string := "PUT".
Definition MethodDelete : string := "DELETE".

End http.

(* ===================================================================== *)
(** * [godep]: the structures of profile.go                               *)
(* ===================================================================== *)

(** [Profile], the Apple DEP API structure of the same name. *)
Module Profile.
Record t : Type := {
  ProfileName : string;
  URL : string;
  AllowPairing : bool;
  IsSupervised : bool;
  IsMultiUser : bool;
  IsMandatory : bool;
  AwaitDeviceConfigured : bool;
  IsMDMRemovable : bool;
  SupportPhoneNumber : string;
  AutoAdvanceSetup : bool;
  SupportEmailAddress : string;
  OrgMagic : string;
  AnchorCerts : slice string;
  SupervisingHostCerts : slice string;
  Department : string;
  Devices : slice string;
  Language : string;
  Region : string;
  ConfigurationWebURL : string;
  SkipSetupItems : slice string;
  ProfileUUID : string
}.

(** The encoding the struct tags ask for, field by field in declaration
    order. *)
Definition fields (p : t) : list (string * json) :=
  field "profile_name" (ProfileName p) ++
  field "url" (URL p) ++
  field_omitempty "allow_pairing" (AllowPairing p) ++
  field_omitempty "is_supervised" (IsSupervised p) ++
  field_omitempty "is_multi_user" (IsMultiUser p) ++
  field_omitempty "is_mandatory" (IsMandatory p) ++
  field_omitempty "await_device_configured" (AwaitDeviceConfigured p) ++
  field "is_mdm_removable" (IsMDMRemovable p) ++
  field_omitempty "support_phone_number" (SupportPhoneNumber p) ++
  field_omitempty "auto_advance_setup" (AutoAdvanceSetup p) ++
  field_omitempty "support_email_address" (SupportEmailAddress p) ++
  field "org_magic" (OrgMagic p) ++
  field_omitempty "anchor_certs" (AnchorCerts p) ++
  field_omitempty "supervising_host_certs" (SupervisingHostCerts p) ++
  field_omitempty "department" (Department p) ++
  field_omitempty "devices" (Devices p) ++
  field_omitempty "language" (Language p) ++
  field_omitempty "region" (Region p) ++
  field_omitempty "configuration_web_url" (ConfigurationWebURL p) ++
  field_omitempty "skip_setup_items" (SkipSetupItems p) ++
  field_omitempty "profile_uuid" (ProfileUUID p).

#[global] Instance marshal : Marshaler t := fun p => JObject (fields p).

(** The names the struct tags give the fields, in declaration order. *)
Definition tags : list string :=
  ["profile_name"; "url"; "allow_pairing"; "is_supervised"; "is_multi_user";
   "is_mandatory"; "await_device_configured"; "is_mdm_removable";
   "support_phone_number"; "auto_advance_setup"; "support_email_address";
   "org_magic"; "anchor_certs"; "supervising_host_certs"; "department";
   "devices"; "language"; "region"; "configuration_web_url";
   "skip_setup_items"; "profile_uuid"].

#[global] Instance zero_value : Zero t :=
  {| ProfileName := zero; URL := zero; AllowPairing := zero;
     IsSupervised := zero; IsMultiUser := zero; IsMandatory := zero;
     AwaitDeviceConfigured := zero; IsMDMRemovable := zero;
     SupportPhoneNumber := zero; AutoAdvanceSetup := zero;
     SupportEmailAddress := zero; OrgMagic := zero; AnchorCerts := zero;
     SupervisingHostCerts := zero; Department := zero; Devices := zero;
     Language := zero; Region := zero; ConfigurationWebURL := zero;
     SkipSetupItems := zero; ProfileUUID := zero |}.

(** ** Reading a [Profile]

    The struct is also what the service returns when a profile is
    requested (see the comment on [ProfileUUID] in the source), read by
    the same tags. *)

(** [with_F v p] is [p] with the field [F] set to [v]. *)
Definition with_ProfileName (v : string) (p : t) : t :=
  {| ProfileName := v; URL := URL p; AllowPairing := AllowPairing p;
     IsSupervised := IsSupervised p; IsMultiUser := IsMultiUser p;
     IsMandatory := IsMandatory p; AwaitDeviceConfigured :=
     AwaitDeviceConfigured p; IsMDMRemovable := IsMDMRemovable p;
     SupportPhoneNumber := SupportPhoneNumber p; AutoAdvanceSetup :=
     AutoAdvanceSetup p; SupportEmailAddress := SupportEmailAddress p;
     OrgMagic := OrgMagic p; AnchorCerts := AnchorCerts p;
     SupervisingHostCerts := SupervisingHostCerts p; Department := Department
     p; Devices := Devices p; Language := Language p; Region := Region p;
     ConfigurationWebURL := ConfigurationWebURL p; SkipSetupItems :=
     SkipSetupItems p; ProfileUUID := ProfileUUID p |}.
Definition with_URL (v : string) (p : t) : t :=
  {| ProfileName := ProfileName p; URL := v; AllowPairing := AllowPairing p;
     IsSupervised := IsSupervised p; IsMultiUser := IsMultiUser p;
     IsMandatory := IsMandatory p; AwaitDeviceConfigured :=
     AwaitDeviceConfigured p; IsMDMRemovable := IsMDMRemovable p;
     SupportPhoneNumber := SupportPhoneNumber p; AutoAdvanceSetup :=
     AutoAdvanceSetup p; SupportEmailAddress := SupportEmailAddress p;
     OrgMagic := OrgMagic p; AnchorCerts := AnchorCerts p;
     SupervisingHostCerts := SupervisingHostCerts p; Department := Department
     p; Devices := Devices p; Language := Language p; Region := Region p;
     ConfigurationWebURL := ConfigurationWebURL p; SkipSetupItems :=
     SkipSetupItems p; ProfileUUID := ProfileUUID p |}.
Definition with_AllowPairing (v : bool) (p : t) : t :=
  {| ProfileName := ProfileName p; URL := URL p; AllowPairing := v;
     IsSupervised := IsSupervised p; IsMultiUser := IsMultiUser p;
     IsMandatory := IsMandatory p; AwaitDeviceConfigured :=
     AwaitDeviceConfigured p; IsMDMRemovable := IsMDMRemovable p;
     SupportPhoneNumber := SupportPhoneNumber p; AutoAdvanceSetup :=
     AutoAdvanceSetup p; SupportEmailAddress := SupportEmailAddress p;
     OrgMagic := OrgMagic p; AnchorCerts := AnchorCerts p;
     SupervisingHostCerts := SupervisingHostCerts p; Department := Department
     p; Devices := Devices p; Language := Language p; Region := Region p;
     ConfigurationWebURL := ConfigurationWebURL p; SkipSetupItems :=
     SkipSetupItems p; ProfileUUID := ProfileUUID p |}.
Definition with_IsSupervised (v : bool) (p : t) : t :=
  {| ProfileName := ProfileName p; URL := URL p; AllowPairing := AllowPairing
     p; IsSupervised := v; IsMultiUser := IsMultiUser p; IsMandatory :=
     IsMandatory p; AwaitDeviceConfigured := AwaitDeviceConfigured p;
     IsMDMRemovable := IsMDMRemovable p; SupportPhoneNumber :=
     SupportPhoneNumber p; AutoAdvanceSetup := AutoAdvanceSetup p;
     SupportEmailAddress := SupportEmailAddress p; OrgMagic := OrgMagic p;
     AnchorCerts := AnchorCerts p; SupervisingHostCerts :=
     SupervisingHostCerts p; Department := Department p; Devices := Devices
     p; Language := Language p; Region := Region p; ConfigurationWebURL :=
     ConfigurationWebURL p; SkipSetupItems := SkipSetupItems p; ProfileUUID
     := ProfileUUID p |}.
Definition with_IsMultiUser (v : bool) (p : t) : t :=
  {| ProfileName := ProfileName p; URL := URL p; AllowPairing := AllowPairing
     p; IsSupervised := IsSupervised p; IsMultiUser := v; IsMandatory :=
     IsMandatory p; AwaitDeviceConfigured := AwaitDeviceConfigured p;
     IsMDMRemovable := IsMDMRemovable p; SupportPhoneNumber :=
     SupportPhoneNumber p; AutoAdvanceSetup := AutoAdvanceSetup p;
     SupportEmailAddress := SupportEmailAddress p; OrgMagic := OrgMagic p;
     AnchorCerts := AnchorCerts p; SupervisingHostCerts :=
     SupervisingHostCerts p; Department := Department p; Devices := Devices
     p; Language := Language p; Region := Region p; ConfigurationWebURL :=
     ConfigurationWebURL p; SkipSetupItems := SkipSetupItems p; ProfileUUID
     := ProfileUUID p |}.
Definition with_IsMandatory (v : bool) (p : t) : t :=
  {| ProfileName := ProfileName p; URL := URL p; AllowPairing := AllowPairing
     p; IsSupervised := IsSupervised p; IsMultiUser := IsMultiUser p;
     IsMandatory := v; AwaitDeviceConfigured := AwaitDeviceConfigured p;
     IsMDMRemovable := IsMDMRemovable p; SupportPhoneNumber :=
     SupportPhoneNumber p; AutoAdvanceSetup := AutoAdvanceSetup p;
     SupportEmailAddress := SupportEmailAddress p; OrgMagic := OrgMagic p;
     AnchorCerts := AnchorCerts p; SupervisingHostCerts :=
     SupervisingHostCerts p; Department := Department p; Devices := Devices
     p; Language := Language p; Region := Region p; ConfigurationWebURL :=
     ConfigurationWebURL p; SkipSetupItems := SkipSetupItems p; ProfileUUID
     := ProfileUUID p |}.
Definition with_AwaitDeviceConfigured (v : bool) (p : t) : t :=
  {| ProfileName := ProfileName p; URL := URL p; AllowPairing := AllowPairing
     p; IsSupervised := IsSupervised p; IsMultiUser := IsMultiUser p;
     IsMandatory := IsMandatory p; AwaitDeviceConfigured := v; IsMDMRemovable
     := IsMDMRemovable p; SupportPhoneNumber := SupportPhoneNumber p;
     AutoAdvanceSetup := AutoAdvanceSetup p; SupportEmailAddress :=
     SupportEmailAddress p; OrgMagic := OrgMagic p; AnchorCerts :=
     AnchorCerts p; SupervisingHostCerts := SupervisingHostCerts p;
     Department := Department p; Devices := Devices p; Language := Language
     p; Region := Region p; ConfigurationWebURL := ConfigurationWebURL p;
     SkipSetupItems := SkipSetupItems p; ProfileUUID := ProfileUUID p |}.
Definition with_IsMDMRemovable (v : bool) (p : t) : t :=
  {| ProfileName := ProfileName p; URL := URL p; AllowPairing := AllowPairing
     p; IsSupervised := IsSupervised p; IsMultiUser := IsMultiUser p;
     IsMandatory := IsMandatory p; AwaitDeviceConfigured :=
     AwaitDeviceConfigured p; IsMDMRemovable := v; SupportPhoneNumber :=
     SupportPhoneNumber p; AutoAdvanceSetup := AutoAdvanceSetup p;
     SupportEmailAddress := SupportEmailAddress p; OrgMagic := OrgMagic p;
     AnchorCerts := AnchorCerts p; SupervisingHostCerts :=
     SupervisingHostCerts p; Department := Department p; Devices := Devices
     p; Language := Language p; Region := Region p; ConfigurationWebURL :=
     ConfigurationWebURL p; SkipSetupItems := SkipSetupItems p; ProfileUUID
     := ProfileUUID p |}.
Definition with_SupportPhoneNumber (v : string) (p : t) : t :=
  {| ProfileName := ProfileName p; URL := URL p; AllowPairing := AllowPairing
     p; IsSupervised := IsSupervised p; IsMultiUser := IsMultiUser p;
     IsMandatory := IsMandatory p; AwaitDeviceConfigured :=
     AwaitDeviceConfigured p; IsMDMRemovable := IsMDMRemovable p;
     SupportPhoneNumber := v; AutoAdvanceSetup := AutoAdvanceSetup p;
     SupportEmailAddress := SupportEmailAddress p; OrgMagic := OrgMagic p;
     AnchorCerts := AnchorCerts p; SupervisingHostCerts :=
     SupervisingHostCerts p; Department := Department p; Devices := Devices
     p; Language := Language p; Region := Region p; ConfigurationWebURL :=
     ConfigurationWebURL p; SkipSetupItems := SkipSetupItems p; ProfileUUID
     := ProfileUUID p |}.
Definition with_AutoAdvanceSetup (v : bool) (p : t) : t :=
  {| ProfileName := ProfileName p; URL := URL p; AllowPairing := AllowPairing
     p; IsSupervised := IsSupervised p; IsMultiUser := IsMultiUser p;
     IsMandatory := IsMandatory p; AwaitDeviceConfigured :=
     AwaitDeviceConfigured p; IsMDMRemovable := IsMDMRemovable p;
     SupportPhoneNumber := SupportPhoneNumber p; AutoAdvanceSetup := v;
     SupportEmailAddress := SupportEmailAddress p; OrgMagic := OrgMagic p;
     AnchorCerts := AnchorCerts p; SupervisingHostCerts :=
     SupervisingHostCerts p; Department := Department p; Devices := Devices
     p; Language := Language p; Region := Region p; ConfigurationWebURL :=
     ConfigurationWebURL p; SkipSetupItems := SkipSetupItems p; ProfileUUID
     := ProfileUUID p |}.
Definition with_SupportEmailAddress (v : string) (p : t) : t :=
  {| ProfileName := ProfileName p; URL := URL p; AllowPairing := AllowPairing
     p; IsSupervised := IsSupervised p; IsMultiUser := IsMultiUser p;
     IsMandatory := IsMandatory p; AwaitDeviceConfigured :=
     AwaitDeviceConfigured p; IsMDMRemovable := IsMDMRemovable p;
     SupportPhoneNumber := SupportPhoneNumber p; AutoAdvanceSetup :=
     AutoAdvanceSetup p; SupportEmailAddress := v; OrgMagic := OrgMagic p;
     AnchorCerts := AnchorCerts p; SupervisingHostCerts :=
     SupervisingHostCerts p; Department := Department p; Devices := Devices
     p; Language := Language p; Region := Region p; ConfigurationWebURL :=
     ConfigurationWebURL p; SkipSetupItems := SkipSetupItems p; ProfileUUID
     := ProfileUUID p |}.
Definition with_OrgMagic (v : string) (p : t) : t :=
  {| ProfileName := ProfileName p; URL := URL p; AllowPairing := AllowPairing
     p; IsSupervised := IsSupervised p; IsMultiUser := IsMultiUser p;
     IsMandatory := IsMandatory p; AwaitDeviceConfigured :=
     AwaitDeviceConfigured p; IsMDMRemovable := IsMDMRemovable p;
     SupportPhoneNumber := SupportPhoneNumber p; AutoAdvanceSetup :=
     AutoAdvanceSetup p; SupportEmailAddress := SupportEmailAddress p;
     OrgMagic := v; AnchorCerts := AnchorCerts p; SupervisingHostCerts :=
     SupervisingHostCerts p; Department := Department p; Devices := Devices
     p; Language := Language p; Region := Region p; ConfigurationWebURL :=
     ConfigurationWebURL p; SkipSetupItems := SkipSetupItems p; ProfileUUID
     := ProfileUUID p |}.
Definition with_AnchorCerts (v : slice string) (p : t) : t :=
  {| ProfileName := ProfileName p; URL := URL p; AllowPairing := AllowPairing
     p; IsSupervised := IsSupervised p; IsMultiUser := IsMultiUser p;
     IsMandatory := IsMandatory p; AwaitDeviceConfigured :=
     AwaitDeviceConfigured p; IsMDMRemovable := IsMDMRemovable p;
     SupportPhoneNumber := SupportPhoneNumber p; AutoAdvanceSetup :=
     AutoAdvanceSetup p; SupportEmailAddress := SupportEmailAddress p;
     OrgMagic := OrgMagic p; AnchorCerts := v; SupervisingHostCerts :=
     SupervisingHostCerts p; Department := Department p; Devices := Devices
     p; Language := Language p; Region := Region p; ConfigurationWebURL :=
     ConfigurationWebURL p; SkipSetupItems := SkipSetupItems p; ProfileUUID
     := ProfileUUID p |}.
Definition with_SupervisingHostCerts (v : slice string) (p : t) : t :=
  {| ProfileName := ProfileName p; URL := URL p; AllowPairing := AllowPairing
     p; IsSupervised := IsSupervised p; IsMultiUser := IsMultiUser p;
     IsMandatory := IsMandatory p; AwaitDeviceConfigured :=
     AwaitDeviceConfigured p; IsMDMRemovable := IsMDMRemovable p;
     SupportPhoneNumber := SupportPhoneNumber p; AutoAdvanceSetup :=
     AutoAdvanceSetup p; SupportEmailAddress := SupportEmailAddress p;
     OrgMagic := OrgMagic p; AnchorCerts := AnchorCerts p;
     SupervisingHostCerts := v; Department := Department p; Devices :=
     Devices p; Language := Language p; Region := Region p;
     ConfigurationWebURL := ConfigurationWebURL p; SkipSetupItems :=
     SkipSetupItems p; ProfileUUID := ProfileUUID p |}.
Definition with_Department (v : string) (p : t) : t :=
  {| ProfileName := ProfileName p; URL := URL p; AllowPairing := AllowPairing
     p; IsSupervised := IsSupervised p; IsMultiUser := IsMultiUser p;
     IsMandatory := IsMandatory p; AwaitDeviceConfigured :=
     AwaitDeviceConfigured p; IsMDMRemovable := IsMDMRemovable p;
     SupportPhoneNumber := SupportPhoneNumber p; AutoAdvanceSetup :=
     AutoAdvanceSetup p; SupportEmailAddress := SupportEmailAddress p;
     OrgMagic := OrgMagic p; AnchorCerts := AnchorCerts p;
     SupervisingHostCerts := SupervisingHostCerts p; Department := v; Devices
     := Devices p; Language := Language p; Region := Region p;
     ConfigurationWebURL := ConfigurationWebURL p; SkipSetupItems :=
     SkipSetupItems p; ProfileUUID := ProfileUUID p |}.
Definition with_Devices (v : slice string) (p : t) : t :=
  {| ProfileName := ProfileName p; URL := URL p; AllowPairing := AllowPairing
     p; IsSupervised := IsSupervised p; IsMultiUser := IsMultiUser p;
     IsMandatory := IsMandatory p; AwaitDeviceConfigured :=
     AwaitDeviceConfigured p; IsMDMRemovable := IsMDMRemovable p;
     SupportPhoneNumber := SupportPhoneNumber p; AutoAdvanceSetup :=
     AutoAdvanceSetup p; SupportEmailAddress := SupportEmailAddress p;
     OrgMagic := OrgMagic p; AnchorCerts := AnchorCerts p;
     SupervisingHostCerts := SupervisingHostCerts p; Department := Department
     p; Devices := v; Language := Language p; Region := Region p;
     ConfigurationWebURL := ConfigurationWebURL p; SkipSetupItems :=
     SkipSetupItems p; ProfileUUID := ProfileUUID p |}.
Definition with_Language (v : string) (p : t) : t :=
  {| ProfileName := ProfileName p; URL := URL p; AllowPairing := AllowPairing
     p; IsSupervised := IsSupervised p; IsMultiUser := IsMultiUser p;
     IsMandatory := IsMandatory p; AwaitDeviceConfigured :=
     AwaitDeviceConfigured p; IsMDMRemovable := IsMDMRemovable p;
     SupportPhoneNumber := SupportPhoneNumber p; AutoAdvanceSetup :=
     AutoAdvanceSetup p; SupportEmailAddress := SupportEmailAddress p;
     OrgMagic := OrgMagic p; AnchorCerts := AnchorCerts p;
     SupervisingHostCerts := SupervisingHostCerts p; Department := Department
     p; Devices := Devices p; Language := v; Region := Region p;
     ConfigurationWebURL := ConfigurationWebURL p; SkipSetupItems :=
     SkipSetupItems p; ProfileUUID := ProfileUUID p |}.
Definition with_Region (v : string) (p : t) : t :=
  {| ProfileName := ProfileName p; URL := URL p; AllowPairing := AllowPairing
     p; IsSupervised := IsSupervised p; IsMultiUser := IsMultiUser p;
     IsMandatory := IsMandatory p; AwaitDeviceConfigured :=
     AwaitDeviceConfigured p; IsMDMRemovable := IsMDMRemovable p;
     SupportPhoneNumber := SupportPhoneNumber p; AutoAdvanceSetup :=
     AutoAdvanceSetup p; SupportEmailAddress := SupportEmailAddress p;
     OrgMagic := OrgMagic p; AnchorCerts := AnchorCerts p;
     SupervisingHostCerts := SupervisingHostCerts p; Department := Department
     p; Devices := Devices p; Language := Language p; Region := v;
     ConfigurationWebURL := ConfigurationWebURL p; SkipSetupItems :=
     SkipSetupItems p; ProfileUUID := ProfileUUID p |}.
Definition with_ConfigurationWebURL (v : string) (p : t) : t :=
  {| ProfileName := ProfileName p; URL := URL p; AllowPairing := AllowPairing
     p; IsSupervised := IsSupervised p; IsMultiUser := IsMultiUser p;
     IsMandatory := IsMandatory p; AwaitDeviceConfigured :=
     AwaitDeviceConfigured p; IsMDMRemovable := IsMDMRemovable p;
     SupportPhoneNumber := SupportPhoneNumber p; AutoAdvanceSetup :=
     AutoAdvanceSetup p; SupportEmailAddress := SupportEmailAddress p;
     OrgMagic := OrgMagic p; AnchorCerts := AnchorCerts p;
     SupervisingHostCerts := SupervisingHostCerts p; Department := Department
     p; Devices := Devices p; Language := Language p; Region := Region p;
     ConfigurationWebURL := v; SkipSetupItems := SkipSetupItems p;
     ProfileUUID := ProfileUUID p |}.
Definition with_SkipSetupItems (v : slice string) (p : t) : t :=
  {| ProfileName := ProfileName p; URL := URL p; AllowPairing := AllowPairing
     p; IsSupervised := IsSupervised p; IsMultiUser := IsMultiUser p;
     IsMandatory := IsMandatory p; AwaitDeviceConfigured :=
     AwaitDeviceConfigured p; IsMDMRemovable := IsMDMRemovable p;
     SupportPhoneNumber := SupportPhoneNumber p; AutoAdvanceSetup :=
     AutoAdvanceSetup p; SupportEmailAddress := SupportEmailAddress p;
     OrgMagic := OrgMagic p; AnchorCerts := AnchorCerts p;
     SupervisingHostCerts := SupervisingHostCerts p; Department := Department
     p; Devices := Devices p; Language := Language p; Region := Region p;
     ConfigurationWebURL := ConfigurationWebURL p; SkipSetupItems := v;
     ProfileUUID := ProfileUUID p |}.
Definition with_ProfileUUID (v : string) (p : t) : t :=
  {| ProfileName := ProfileName p; URL := URL p; AllowPairing := AllowPairing
     p; IsSupervised := IsSupervised p; IsMultiUser := IsMultiUser p;
     IsMandatory := IsMandatory p; AwaitDeviceConfigured :=
     AwaitDeviceConfigured p; IsMDMRemovable := IsMDMRemovable p;
     SupportPhoneNumber := SupportPhoneNumber p; AutoAdvanceSetup :=
     AutoAdvanceSetup p; SupportEmailAddress := SupportEmailAddress p;
     OrgMagic := OrgMagic p; AnchorCerts := AnchorCerts p;
     SupervisingHostCerts := SupervisingHostCerts p; Department := Department
     p; Devices := Devices p; Language := Language p; Region := Region p;
     ConfigurationWebURL := ConfigurationWebURL p; SkipSetupItems :=
     SkipSetupItems p; ProfileUUID := v |}.

(** The member selected under the tag [n], read into its field. *)
Definition set (n : string) (x : json) (p : t) : option t :=
  if String.eqb n "profile_name" then
    option_map (fun v => with_ProfileName v p) (UnmarshalJSON x (ProfileName p))
  else if String.eqb n "url" then
    option_map (fun v => with_URL v p) (UnmarshalJSON x (URL p))
  else if String.eqb n "allow_pairing" then
    option_map (fun v => with_AllowPairing v p) (UnmarshalJSON x (AllowPairing p))
  else if String.eqb n "is_supervised" then
    option_map (fun v => with_IsSupervised v p) (UnmarshalJSON x (IsSupervised p))
  else if String.eqb n "is_multi_user" then
    option_map (fun v => with_IsMultiUser v p) (UnmarshalJSON x (IsMultiUser p))
  else if String.eqb n "is_mandatory" then
    option_map (fun v => with_IsMandatory v p) (UnmarshalJSON x (IsMandatory p))
  else if String.eqb n "await_device_configured" then
    option_map (fun v => with_AwaitDeviceConfigured v p) (UnmarshalJSON x (AwaitDeviceConfigured p))
  else if String.eqb n "is_mdm_removable" then
    option_map (fun v => with_IsMDMRemovable v p) (UnmarshalJSON x (IsMDMRemovable p))
  else if String.eqb n "support_phone_number" then
    option_map (fun v => with_SupportPhoneNumber v p) (UnmarshalJSON x (SupportPhoneNumber p))
  else if String.eqb n "auto_advance_setup" then
    option_map (fun v => with_AutoAdvanceSetup v p) (UnmarshalJSON x (AutoAdvanceSetup p))
  else if String.eqb n "support_email_address" then
    option_map (fun v => with_SupportEmailAddress v p) (UnmarshalJSON x (SupportEmailAddress p))
  else if String.eqb n "org_magic" then
    option_map (fun v => with_OrgMagic v p) (UnmarshalJSON x (OrgMagic p))
  else if String.eqb n "anchor_certs" then
    option_map (fun v => with_AnchorCerts v p) (UnmarshalJSON x (AnchorCerts p))
  else if String.eqb n "supervising_host_certs" then
    option_map (fun v => with_SupervisingHostCerts v p) (UnmarshalJSON x (SupervisingHostCerts p))
  else if String.eqb n "department" then
    option_map (fun v => with_Department v p) (UnmarshalJSON x (Department p))
  else if String.eqb n "devices" then
    option_map (fun v => with_Devices v p) (UnmarshalJSON x (Devices p))
  else if String.eqb n "language" then
    option_map (fun v => with_Language v p) (UnmarshalJSON x (Language p))
  else if String.eqb n "region" then
    option_map (fun v => with_Region v p) (UnmarshalJSON x (Region p))
  else if String.eqb n "configuration_web_url" then
    option_map (fun v => with_ConfigurationWebURL v p) (UnmarshalJSON x (ConfigurationWebURL p))
  else if String.eqb n "skip_setup_items" then
    option_map (fun v => with_SkipSetupItems v p) (UnmarshalJSON x (SkipSetupItems p))
  else if String.eqb n "profile_uuid" then
    option_map (fun v => with_ProfileUUID v p) (UnmarshalJSON x (ProfileUUID p))
  else Some p.

#[global] Instance unmarshal : Unmarshaler t := unmarshal_struct tags set.

(** The profile as it comes back from its own encoding: every string
    made valid UTF-8, and the slices that [omitempty] leaves out when
    empty nil. *)
Definition normalize (p : t) : t :=
  {| ProfileName := toValidUTF8 (ProfileName p);
     URL := toValidUTF8 (URL p);
     AllowPairing := AllowPairing p;
     IsSupervised := IsSupervised p;
     IsMultiUser := IsMultiUser p;
     IsMandatory := IsMandatory p;
     AwaitDeviceConfigured := AwaitDeviceConfigured p;
     IsMDMRemovable := IsMDMRemovable p;
     SupportPhoneNumber := toValidUTF8 (SupportPhoneNumber p);
     AutoAdvanceSetup := AutoAdvanceSetup p;
     SupportEmailAddress := toValidUTF8 (SupportEmailAddress p);
     OrgMagic := toValidUTF8 (OrgMagic p);
     AnchorCerts := written (trim (AnchorCerts p));
     SupervisingHostCerts := written (trim (SupervisingHostCerts p));
     Department := toValidUTF8 (Department p);
     Devices := written (trim (Devices p));
     Language := toValidUTF8 (Language p);
     Region := toValidUTF8 (Region p);
     ConfigurationWebURL := toValidUTF8 (ConfigurationWebURL p);
     SkipSetupItems := written (trim (SkipSetupItems p));
     ProfileUUID := toValidUTF8 (ProfileUUID p) |}.

(** The string fields and the slice fields of a profile. *)
Definition strings (p : t) : list string :=
  [ProfileName p; URL p; SupportPhoneNumber p; SupportEmailAddress p;
   OrgMagic p; Department p; Language p; Region p; ConfigurationWebURL p;
   ProfileUUID p].

Definition slices (p : t) : list (slice string) :=
  [AnchorCerts p; SupervisingHostCerts p; Devices p; SkipSetupItems p].
End Profile.

(** [ProfileResponse], the API's "AssignProfileResponse". *)
Module ProfileResponse.
Record t : Type := {
  ProfileUUID : string;
  Devices : gmap string string
}.
#[global] Instance zero_value : Zero t :=
  {| ProfileUUID := zero; Devices := zero |}.

Definition set (n : string) (x : json) (r : t) : option t :=
  if String.eqb n "profile_uuid" then
    match UnmarshalJSON x (ProfileUUID r) with
    | Some v => Some {| ProfileUUID := v; Devices := Devices r |}
    | None => None
    end
  else if String.eqb n "devices" then
    match UnmarshalJSON x (Devices r) with
    | Some m => Some {| ProfileUUID := ProfileUUID r; Devices := m |}
    | None => None
    end
  else Some r.

#[global] Instance unmarshal : Unmarshaler t :=
  unmarshal_struct ["profile_uuid"; "devices"] set.

(** Whether a member has the shape of the field it selects: a string or
    [null] for the UUID; for the map [null], or an object of strings and
    [null]s.  A member that selects no field has nothing to fit. *)
Definition is_text (j : json) : bool :=
  match j with
  | JString _ | JNull => true
  | _ => false
  end.

Definition fits (kv : string * json) : bool :=
  match select ["profile_uuid"; "devices"] (fst kv) with
  | None => true
  | Some n =>
    if String.eqb n "profile_uuid" then is_text (snd kv)
    else
      match snd kv with
      | JNull => true
      | JObject ms => forallb (fun m => is_text (snd m)) ms
      | _ => false
      end
  end.
End ProfileResponse.

(** [DefineProfileResponse]. *)
Module DefineProfileResponse.
Record t : Type := {
  ProfileUUID : string;
  Devices : slice string
}.
#[global] Instance zero_value : Zero t :=
  {| ProfileUUID := zero; Devices := zero |}.

Definition set (n : string) (x : json) (r : t) : option t :=
  if String.eqb n "profile_uuid" then
    match UnmarshalJSON x (ProfileUUID r) with
    | Some v => Some {| ProfileUUID := v; Devices := Devices r |}
    | None => None
    end
  else if String.eqb n "devices" then
    match UnmarshalJSON x (Devices r) with
    | Some l => Some {| ProfileUUID := ProfileUUID r; Devices := l |}
    | None => None
    end
  else Some r.

#[global] Instance unmarshal : Unmarshaler t :=
  unmarshal_struct ["profile_uuid"; "devices"] set.
End DefineProfileResponse.

(** [ClearProfileResponse]. *)
Module ClearProfileResponse.
Record t : Type := {
  Devices : gmap string string
}.
#[global] Instance zero_value : Zero t := {| Devices := zero |}.

Definition set (n : string) (x : json) (r : t) : option t :=
  if String.eqb n "devices" then
    match UnmarshalJSON x (Devices r) with
    | Some m => Some {| Devices := m |}
    | None => None
    end
  else Some r.

#[global] Instance unmarshal : Unmarshaler t :=
  unmarshal_struct ["devices"] set.
End ClearProfileResponse.

(** The anonymous request structure of [AssignProfile]. *)
Module AssignProfileRequest.
Record t : Type := {
  ProfileUUID : string;
  Devices : slice string
}.
Definition fields (r : t) : list (string * json) :=
  field "profile_uuid" (ProfileUUID r) ++ field "devices" (Devices r).
#[global] Instance marshal : Marshaler t := fun r => JObject (fields r).
End AssignProfileRequest.

(** The anonymous request structure of [RemoveProfile]; its [ProfileUUID]
    field is commented out in the source. *)
Module RemoveProfileRequest.
Record t : Type := {
  Devices : slice string
}.
Definition fields (r : t) : list (string * json) :=
  field "devices" (Devices r).
#[global] Instance marshal : Marshaler t := fun r => JObject (fields r).
End RemoveProfileRequest.

(* ===================================================================== *)
(** * [godep]: the operations of profile.go                               *)
(* ===================================================================== *)

Module godep.

(** The receiver of the operations.  Its [do] method is the one thing the
    operations of profile.go use: [do(ctx, name, method, path, in, out)]
    encodes [in], runs the request for the configured DEP name, decodes
    the answer into [*out] and returns an [error].  [W] is the state the
    method works on (session cache, remote service), [E] the type of its
    errors; a [nil] error is [None].  The method returns the new contents
    of [*out] with the error.  The context argument, which carries
    cancellation only, is left out. *)
Record Client (W E : Type) : Type := {
  do : forall (A : Type) `{Marshaler A} (V : Type) `{Unmarshaler V},
         string -> string -> string -> A -> V -> W -> (V * option E) * W
}.
Arguments do {W E} _ {A _ V _} _ _ _ _ _ _.

Section Operations.
Context {W E : Type}.

(** [AssignProfile] assigns a profile UUID to a list of serial numbers.
    The request is an HTTP PUT (see the comment in the source).  [resp]
    is the cell [new(ProfileResponse)] allocates; the operation returns
    the pointer to it, with what [do] wrote there, next to the error of
    [do]. *)
Definition AssignProfile (c : Client W E) (name uuid : string)
    (serials : slice string)
  : W -> (ptr ProfileResponse.t * option E) * W :=
  fun w =>
    let req : ptr AssignProfileRequest.t :=
      Some {| AssignProfileRequest.ProfileUUID := uuid;
              AssignProfileRequest.Devices := serials |} in
    let resp : ProfileResponse.t := zero in
    let '((resp', err), w') :=
      do c name http.MethodPut "/profile/devices" req resp w in
    ((Some resp', err), w').

(** [DefineProfile] defines a profile with the service. *)
Definition DefineProfile (c : Client W E) (name : string)
    (profile : ptr Profile.t)
  : W -> (ptr DefineProfileResponse.t * option E) * W :=
  fun w =>
    let resp : DefineProfileResponse.t := zero in
    let '((resp', err), w') :=
      do c name http.MethodPost "/profile" profile resp w in
    ((Some resp', err), w').

(** [RemoveProfile] unassigns any profile from a list of serial
    numbers. *)
Definition RemoveProfile (c : Client W E) (name : string)
    (devices : slice string)
  : W -> (ptr ClearProfileResponse.t * option E) * W :=
  fun w =>
    let req : ptr RemoveProfileRequest.t :=
      Some {| RemoveProfileRequest.Devices := devices |} in
    let resp : ClearProfileResponse.t := zero in
    let '((resp', err), w') :=
      do c name http.MethodDelete "/profile/devices" req resp w in
    ((Some resp', err), w').
End Operations.

(** ** A recording executor

    What an operation hands to [do], as a test double sees it. *)
Record Call : Type := {
  call_name : string;
  call_method : string;
  call_path : string;
  call_body : json
}.

(** [spy c] behaves as [c] and appends every call of [do] to a log kept
    next to the state of [c]. *)
Definition spy {W E : Type} (c : Client W E) : Client (W * list Call) E :=
  {| do := fun A _ V _ name method path in_ out st =>
       let '(r, w') := do c name method path in_ out (fst st) in
       (r, (w', snd st ++ [ {| call_name := name;
                               call_method := method;
                               call_path := path;
                               call_body := MarshalJSON in_ |} ])) |}.

(** The calls an operation made, started from an empty log. *)
Definition calls {W A : Type} (op : W * list Call -> A * (W * list Call))
    (w : W) : list Call :=
  snd (snd (op (w, []))).

End godep.
Export godep.

(* ===================================================================== *)
(** * The core: session manager, request executor, response decoder      *)
(* ===================================================================== *)

Module Core.

(** ** State passing *)

Definition state (W A : Type) : Type := W -> A * W.

#[global] Instance state_ret {W : Type} : MRet (state W) :=
  fun A a w => (a, w).
#[global] Instance state_bind {W : Type} : MBind (state W) :=
  fun A B f m w => let '(a, w') := m w in f a w'.

Definition gets {W A : Type} (f : W -> A) : state W A := fun w => (f w, w).
Definition modify {W : Type} (f : W -> W) : state W unit := fun w => (tt, f w).

(** ** Structured errors *)

(** Modelled from the spec: the error taxonomy of section 7 (the package
    that declares the client's errors is not among the sources), with
    the "unknown" kind of section 3 for what no rule names. *)
Inductive Kind : Type :=
| ConfigNotFound
| StoreError
| AuthError
| TransportError
| ProtocolError
| ValidationError
| NotFoundError
| ServerError
| UnknownError.

#[global] Instance Kind_eq_dec : EqDecision Kind.
Proof. solve_decision. Defined.

(** Modelled from the spec: a structured error, "a kind plus the raw
    server-provided message/status code" ([code] is 0 when no response
    was received). *)
Record Error : Type := {
  kind : Kind;
  code : Z;
  message : string
}.

(** ** The collaborators *)

Definition Token : Type := string.
Definition Credentials : Type := string.

(** Modelled from the spec: what the credential store adapter of section
    6 answers to [Get(configName)]: it is unavailable, it has no
    credentials under the name, or it has some. *)
Inductive Lookup : Type :=
| Unavailable (msg : string)
| Absent
| Found (c : Credentials).

(** Modelled from the spec: how the authentication handshake of section
    4.1 ends: a token, the credentials rejected, or a network failure. *)
Inductive Handshake : Type :=
| Granted (t : Token)
| Rejected (msg : string)
| Unreachable (msg : string).

(** Modelled from the spec: a request as section 4.2 builds it: for which
    configuration, the method and path of the operation, the session
    token attached to it, and the document in its body, if it has one. *)
Record Request : Type := {
  req_name : string;
  req_method : string;
  req_path : string;
  req_token : Token;
  req_body : option json
}.

(** Modelled from the spec: a response as section 4.3 reads it: the
    status code and the body text. *)
Record Response : Type := {
  status : Z;
  body : string
}.

(** Modelled from the spec: the external collaborators of section 6, over
    a state [S] of their own: the credential store adapter's [Get], the
    remote service's authentication endpoint and operation endpoints (a
    send ends in a transport failure or a response), and the marker by
    which the service signals an authentication failure, which the spec
    leaves to configuration. *)
Record Remote (S : Type) : Type := {
  Get : string -> S -> Lookup;
  authenticate : string -> Credentials -> S -> Handshake * S;
  send : Request -> S -> (string + Response) * S;
  auth_marker : Z -> string -> bool
}.
Arguments Get {S} _ _ _.
Arguments authenticate {S} _ _ _ _.
Arguments send {S} _ _ _.
Arguments auth_marker {S} _ _ _.

(** What the client did, in order: began steps 1 to 4 for a request,
    started a handshake, sent a request, invalidated a token. *)
Inductive Event : Type :=
| Attempted (name : string)
| Authenticating (name : string)
| Sent (r : Request)
| Invalidated (name : string).

(** Modelled from the spec: the state the core works on: the
    session-token cache keyed by configuration name (section 5), the
    state of the collaborators, and the trace of what was done so far. *)
Record World (S : Type) : Type := {
  sessions : gmap string Token;
  remote : S;
  trace : list Event
}.
Arguments sessions {S} _.
Arguments remote {S} _.
Arguments trace {S} _.

Definition is_Sent (e : Event) : bool :=
  match e with
  | Sent _ => true
  | _ => false
  end.

Definition is_Authenticating (e : Event) : bool :=
  match e with
  | Authenticating _ => true
  | _ => false
  end.

Definition is_Attempted (e : Event) : bool :=
  match e with
  | Attempted _ => true
  | _ => false
  end.

(** The number of times steps 1 to 4 were begun. *)
Definition attempts {S : Type} (w : World S) : nat :=
  length (List.filter is_Attempted (trace w)).

(** The number of requests that went out, and of handshakes made. *)
Definition sends {S : Type} (w : World S) : nat :=
  length (List.filter is_Sent (trace w)).
Definition handshakes {S : Type} (w : World S) : nat :=
  length (List.filter is_Authenticating (trace w)).

Definition is_2xx (st : Z) : bool := (200 <=? st)%Z && (st <? 300)%Z.
Definition is_4xx (st : Z) : bool := (400 <=? st)%Z && (st <? 500)%Z.
Definition is_5xx (st : Z) : bool := (500 <=? st)%Z && (st <? 600)%Z.

Section Client.
Context {S : Type} (env : Remote S).

Definition log (e : Event) : state (World S) unit :=
  modify (fun w => {| sessions := sessions w; remote := remote w;
                      trace := trace w ++ [e] |}).

(** Run a collaborator on its part of the world. *)
Definition on_remote {A : Type} (f : S -> A * S) : state (World S) A :=
  fun w =>
    let '(a, s') := f (remote w) in
    (a, {| sessions := sessions w; remote := s'; trace := trace w |}).

Definition cache (name : string) (t : Token) : state (World S) unit :=
  modify (fun w => {| sessions := <[name := t]> (sessions w);
                      remote := remote w; trace := trace w |}).

Definition failure (k : Kind) (c : Z) (msg : string) : Error :=
  {| kind := k; code := c; message := msg |}.

(** Modelled from the spec: [EnsureSession] of section 4.1.  The cached
    token if there is one; otherwise the handshake: the credentials from
    the adapter ([StoreError] when it is unavailable, [ConfigNotFound]
    when it has none), the authentication request, and on success the
    new token, cached and returned ([AuthError] when the credentials
    are rejected, [TransportError] when the network fails). *)
Definition EnsureSession (name : string) : state (World S) (Error + Token) :=
  cached ← gets (fun w => sessions w !! name);
  match cached with
  | Some t => mret (inr t)
  | None =>
    found ← gets (fun w => Get env name (remote w));
    match found with
    | Unavailable msg => mret (inl (failure StoreError 0 msg))
    | Absent => mret (inl (failure ConfigNotFound 0 name))
    | Found creds =>
      log (Authenticating name);;
      answer ← on_remote (authenticate env name creds);
      match answer with
      | Granted t => cache name t;; mret (inr t)
      | Rejected msg => mret (inl (failure AuthError 0 msg))
      | Unreachable msg => mret (inl (failure TransportError 0 msg))
      end
    end
  end.

(** Modelled from the spec: [Invalidate] of section 4.1 drops the cached
    token of a configuration name unconditionally. *)
Definition Invalidate (name : string) : state (World S) unit :=
  log (Invalidated name);;
  modify (fun w => {| sessions := delete name (sessions w);
                      remote := remote w; trace := trace w |}).

(** Modelled from the spec: the authentication-failure signal of
    sections 4.2 (step 5) and 4.3: a 4xx status with the service's
    marker. *)
Definition auth_failure (r : Response) : bool :=
  is_4xx (status r) && auth_marker env (status r) (body r).

(** The body read as the expected shape: the text as a document, the
    document decoded into the response type. *)
Definition parse_as {V : Type} `{Unmarshaler V} (text : string) (out : V)
  : option V :=
  match Json.parse text with
  | Some j => UnmarshalJSON j out
  | None => None
  end.

(** Modelled from the spec: [Decode] of section 4.3.  The expected shape
    is the decoder of the response type; [NotFoundError] is the 404 among
    the 4xx. *)
Definition Decode {V : Type} `{Unmarshaler V} (st : Z) (text : string)
    (out : V) : Error + V :=
  if is_2xx st then
    match parse_as text out with
    | Some v => inr v
    | None => inl (failure ProtocolError st text)
    end
  else if is_4xx st then
    if auth_marker env st text then inl (failure AuthError st text)
    else if (st =? 404)%Z then inl (failure NotFoundError st text)
    else inl (failure ValidationError st text)
  else if is_5xx st then inl (failure ServerError st text)
  else inl (failure UnknownError st text).

(** Modelled from the spec: steps 1 to 4 of [Execute] (section 4.2):
    obtain the token (on failure no request is sent), build the request
    with the operation's method and path and the token, send it; a
    transport failure is a [TransportError]. *)
Definition attempt (name method path : string) (rb : option json)
  : state (World S) (Error + Response) :=
  log (Attempted name);;
  session ← EnsureSession name;
  match session with
  | inl e => mret (inl e)
  | inr tok =>
    let req := {| req_name := name; req_method := method;
                  req_path := path; req_token := tok;
                  req_body := rb |} in
    log (Sent req);;
    answer ← on_remote (send env req);
    match answer with
    | inl msg => mret (inl (failure TransportError 0 msg))
    | inr resp => mret (inr resp)
    end
  end.

(** Modelled from the spec: steps 1 to 5 of [Execute] (section 4.2), the
    response the executor settles on.  On an authentication failure the
    token is invalidated and steps 1 to 4 run once more; a second
    authentication failure is an [AuthError], with no further attempt.
    The token the server rejected the second time is evicted as well
    (section 3: a token is evicted the moment the server rejects it). *)
Definition exchange (name method path : string) (rb : option json)
  : state (World S) (Error + Response) :=
  first ← attempt name method path rb;
  match first with
  | inl e => mret (inl e)
  | inr resp =>
    if auth_failure resp then
      Invalidate name;;
      second ← attempt name method path rb;
      match second with
      | inl e => mret (inl e)
      | inr resp' =>
        if auth_failure resp' then
          Invalidate name;;
          mret (inl (failure AuthError (status resp') (body resp')))
        else mret (inr resp')
      end
    else mret (inr resp)
  end.

(** Modelled from the spec: [Execute] of section 4.2: steps 1 to 5, then
    step 6, the response decoded as section 4.3 says. *)
Definition Execute {V : Type} `{Unmarshaler V}
    (name method path : string) (rb : option json) (out : V)
  : state (World S) (Error + V) :=
  answer ← exchange name method path rb;
  match answer with
  | inl e => mret (inl e)
  | inr resp => mret (Decode (status resp) (body resp) out)
  end.

(** Step 5 seen from the second attempt, made once the token is
    invalidated: what its outcome turns into.  A failure stays as it is;
    a second authentication failure becomes an [AuthError], the rejected
    token evicted; any other response stays as it is. *)
Definition settle_second (name : string)
    (r : (Error + Response) * World S) : (Error + Response) * World S :=
  match r with
  | (inl e, w2) => (inl e, w2)
  | (inr resp', w2) =>
    if auth_failure resp' then
      (inl (failure AuthError (status resp') (body resp')),
       snd (Invalidate name w2))
    else (inr resp', w2)
  end.


(** Modelled from the spec: the receiver's [do] (its file is not among
    the sources), as the typed operation methods of section 2 use the
    request executor: the input encoded as the request body, the
    response decoded into [*out], which is left as it was on an
    error. *)
Definition client : Client (World S) Error :=
  {| do := fun A _ V _ name method path in_ out w =>
       match Execute name method path (Some (MarshalJSON in_)) out w with
       | (inr v, w') => ((v, None), w')
       | (inl e, w') => ((out, Some e), w')
       end |}.
End Client.

(** The world before anything was done. *)
Definition fresh {S : Type} (s : S) : World S :=
  {| sessions := ∅; remote := s; trace := [] |}.

End Core.
Export Core.

(* ===================================================================== *)
(** * A test double for the collaborators                                 *)
(* ===================================================================== *)

Module Double.

(** The credentials the adapter holds, and the scripted outcomes of the
    handshakes and of the requests still to come. *)
Record t : Type := {
  creds : gmap string Credentials;
  grants : list Handshake;
  answers : list (string + Response)
}.

(** A remote service that plays its script: each handshake and each
    request takes the next scripted outcome (a transport failure once the
    script is over); the authentication-failure marker is status 401. *)
Definition remote : Remote t :=
  {| Get := fun name s =>
       match creds s !! name with
       | Some c => Found c
       | None => Absent
       end;
     authenticate := fun _ _ s =>
       match grants s with
       | g :: rest =>
         (g, {| creds := creds s; grants := rest; answers := answers s |})
       | [] => (Unreachable "no route to host", s)
       end;
     send := fun _ s =>
       match answers s with
       | a :: rest =>
         (a, {| creds := creds s; grants := grants s; answers := rest |})
       | [] => (inl "connection refused", s)
       end;
     auth_marker := fun st _ => (st =? 401)%Z |}.

(** The configuration "acme" with valid credentials, before any call. *)
Definition acme (grants : list Handshake) (answers : list (string + Response))
  : World t :=
  fresh {| creds := {[ "acme" := "consumer-key" ]};
           grants := grants; answers := answers |}.

Definition expired : Response :=
  {| status := 401; body := wire "{'code':'T_C_NOT_SIGNED'}" |}.

Definition batch : Response :=
  {| status := 200;
     body := wire "{'profile_uuid':'P1','devices':{'S1':'SUCCESS','S2':'NOT_ACCESSIBLE'}}" |}.

(** The same batch result as a service may as well write it: the map
    first, a member the client does not know, white space between the
    tokens. *)
Definition batch_loose : Response :=
  {| status := 200;
     body := wire "{ 'devices': {'S1':'SUCCESS', 'S2':'NOT_ACCESSIBLE'}, 'note': 1, 'profile_uuid': 'P1' }" |}.

Definition garbled : Response :=
  {| status := 200; body := "<html>Bad Gateway</html>" |}.

End Double.

(* ===================================================================== *)
(** * Theorems                                                            *)
(* ===================================================================== *)

(** ** Strings made valid UTF-8 *)

Lemma toValidUTF8_replacement (s : string) :
  toValidUTF8 (replacement +:+ s) = replacement +:+ toValidUTF8 s.
Proof. reflexivity. Qed.

Lemma toValidUTF8_idem_upto (n : nat) (s : string) :
  String.length s <= n -> toValidUTF8 (toValidUTF8 s) = toValidUTF8 s.
Proof.
  revert s. induction n as [|n IH]; intros s Hlen.
  - destruct s; [reflexivity|simpl in Hlen; lia].
  - destruct s as [|b0 r0]; [reflexivity|].
    simpl in Hlen. cbn [toValidUTF8].
    destruct (N_of_ascii b0 <? 0x80)%N eqn:H0.
    { cbn [toValidUTF8]. rewrite H0, IH by lia. reflexivity. }
    destruct r0 as [|b1 r1]; [reflexivity|]. simpl in Hlen.
    destruct (in_range 0xC2 0xDF (N_of_ascii b0) && is_cont b1) eqn:H2.
    { cbn [toValidUTF8]. rewrite H0, H2, IH by lia. reflexivity. }
    assert (Hrep : toValidUTF8 (replacement +:+ toValidUTF8 (String b1 r1))
                   = replacement +:+ toValidUTF8 (String b1 r1)).
    { rewrite toValidUTF8_replacement, IH by (simpl; lia). reflexivity. }
    destruct r1 as [|b2 r2]; [exact Hrep|]. simpl in Hlen.
    destruct (in_range 0xE0 0xEF (N_of_ascii b0) && second_ok (N_of_ascii b0) b1
              && is_cont b2) eqn:H3.
    { cbn [toValidUTF8]. rewrite H0, H2, H3, IH by lia. reflexivity. }
    destruct r2 as [|b3 r3]; [exact Hrep|]. simpl in Hlen.
    destruct (in_range 0xF0 0xF4 (N_of_ascii b0) && second_ok (N_of_ascii b0) b1
              && is_cont b2 && is_cont b3) eqn:H4; [|exact Hrep].
    cbn [toValidUTF8]. rewrite H0, H2, H3, H4, IH by lia. reflexivity.
Qed.

Lemma toValidUTF8_idem (s : string) :
  toValidUTF8 (toValidUTF8 s) = toValidUTF8 s.
Proof. apply (toValidUTF8_idem_upto (String.length s)). lia. Qed.

Lemma toValidUTF8_empty (s : string) :
  Nat.eqb (String.length (toValidUTF8 s)) 0 = Nat.eqb (String.length s) 0.
Proof.
  destruct s as [|b0 r0]; [reflexivity|]. cbn [toValidUTF8].
  destruct (N_of_ascii b0 <? 0x80)%N; [reflexivity|].
  destruct r0 as [|b1 r1]; [reflexivity|].
  destruct (in_range 0xC2 0xDF (N_of_ascii b0) && is_cont b1); [reflexivity|].
  destruct r1 as [|b2 r2]; [reflexivity|].
  destruct (in_range 0xE0 0xEF (N_of_ascii b0) && second_ok (N_of_ascii b0) b1
            && is_cont b2); [reflexivity|].
  destruct r2 as [|b3 r3]; [reflexivity|].
  destruct (in_range 0xF0 0xF4 (N_of_ascii b0) && second_ok (N_of_ascii b0) b1
            && is_cont b2 && is_cont b3); reflexivity.
Qed.

(** ** The reader accepts every text of a document *)

Section Reader.
#[local] Arguments String.append : simpl nomatch.

Lemma append_assoc (a b c : string) : (a +:+ b) +:+ c = a +:+ (b +:+ c).
Proof. induction a as [|x a IH]; simpl; [reflexivity|]. f_equal. exact IH. Qed.

Lemma append_length (a b : string) :
  String.length (a +:+ b) = String.length a + String.length b.
Proof. induction a as [|x a IH]; simpl; [reflexivity|]. f_equal. exact IH. Qed.

Lemma skip_ws_blank (ws s : string) :
  blank ws = true -> skip_ws (ws +:+ s) = skip_ws s.
Proof.
  induction ws as [|c ws IH]; simpl; [reflexivity|].
  intros H. apply andb_true_iff in H as [Hc Hws]. rewrite Hc. apply IH, Hws.
Qed.

Lemma skip_ws_all (ws : string) : blank ws = true -> skip_ws ws = EmptyString.
Proof.
  induction ws as [|c ws IH]; simpl; [reflexivity|].
  intros H. apply andb_true_iff in H as [Hc Hws]. rewrite Hc. apply IH, Hws.
Qed.

Lemma skip_ws_at (ws : string) (c : ascii) (s : string) :
  blank ws = true -> is_space c = false ->
  skip_ws (ws +:+ String c s) = String c s.
Proof.
  intros Hws Hc. rewrite skip_ws_blank by exact Hws. simpl. rewrite Hc.
  reflexivity.
Qed.

(** Strings *)

Lemma emit_some {A : Type} (pre d : string) (rest : A) :
  emit pre (Some (d, rest)) = Some (pre +:+ d, rest).
Proof. reflexivity. Qed.

Lemma unquote_complete (s t : string) :
  Quoted s t ->
  forall rest, unquote Plain None (t +:+ String dquote rest) = Some (s, rest).
Proof.
  induction 1 as [|c s t Hc _ IH|c e s t He _ IH|a b c d u s t Hu Hh Hl _ IH];
    intros rest.
  - reflexivity.
  - unfold literal_ok in Hc.
    apply andb_true_iff in Hc as [Hc H3]. apply andb_true_iff in Hc as [H1 H2].
    apply negb_true_iff in H1, H2, H3.
    cbn [append unquote]. rewrite H1, H2, H3, IH. reflexivity.
  - cbn [append unquote].
    change (Ascii.eqb backslash backslash) with true. cbv iota.
    destruct (Ascii.eqb_spec e "u") as [->|_]; [discriminate He|].
    rewrite He, IH. reflexivity.
  - cbn [append unquote].
    change (Ascii.eqb backslash backslash) with true.
    change (Ascii.eqb "u" "u") with true. cbv iota.
    unfold hex4 in Hu.
    destruct (hex_val a) as [w|]; [|discriminate].
    destruct (hex_val b) as [x|]; [|discriminate].
    destruct (hex_val c) as [y|]; [|discriminate].
    destruct (hex_val d) as [z|]; [|discriminate].
    injection Hu as Hu. rewrite Hu, Hh, Hl, IH. reflexivity.
Qed.

Lemma read_string_complete (s t rest : string) :
  Quoted s t ->
  read_string Plain None (t +:+ String dquote rest)
    = Some (toValidUTF8 s, rest).
Proof.
  intros Hq. unfold read_string. rewrite (unquote_complete s t Hq).
  reflexivity.
Qed.

(** Numbers *)

Lemma ends_value_no_digit (c : ascii) (r : string) :
  ends_value (String c r) = true ->
  is_digit c = false /\ Ascii.eqb c "." = false /\ Ascii.eqb c "e" = false
  /\ Ascii.eqb c "E" = false /\ Ascii.eqb c "+" = false
  /\ Ascii.eqb c "-" = false.
Proof.
  unfold ends_value, is_space. intros H.
  repeat (apply orb_true_iff in H as [H|H]);
    apply Ascii.eqb_eq in H; subst c; repeat split; reflexivity.
Qed.

Lemma digits_app (s rest : string) :
  ends_value rest = true ->
  digits (s +:+ rest) = (fst (digits s), snd (digits s) +:+ rest).
Proof.
  intros Hrest. induction s as [|c s IH]; simpl.
  - destruct rest as [|c r]; [reflexivity|].
    destruct (ends_value_no_digit c r Hrest) as [Hd _]. simpl. rewrite Hd.
    reflexivity.
  - destruct (is_digit c); [|reflexivity].
    rewrite IH. destruct (digits s) as [d r]. reflexivity.
Qed.

Lemma digits1_app (s rest d r : string) :
  ends_value rest = true -> digits1 s = Some (d, r) ->
  digits1 (s +:+ rest) = Some (d, r +:+ rest).
Proof.
  intros Hrest. unfold digits1. rewrite digits_app by exact Hrest.
  destruct (digits s) as [[|c d'] r']; simpl; [discriminate|].
  intros [= <- <-]. reflexivity.
Qed.

Lemma int_app (s rest i r : string) :
  ends_value rest = true -> int s = Some (i, r) ->
  int (s +:+ rest) = Some (i, r +:+ rest).
Proof.
  intros Hrest. destruct s as [|c s]; [discriminate|]. simpl.
  destruct (Ascii.eqb c "0").
  - intros [= <- <-]. reflexivity.
  - intros H. apply (digits1_app (String c s) rest i r Hrest H).
Qed.

Lemma frac_app (s rest f r : string) :
  ends_value rest = true -> frac s = Some (f, r) ->
  frac (s +:+ rest) = Some (f, r +:+ rest).
Proof.
  intros Hrest. destruct s as [|c s]; simpl.
  - intros [= <- <-]. destruct rest as [|c r]; [reflexivity|].
    destruct (ends_value_no_digit c r Hrest) as (_ & Hp & _). simpl.
    rewrite Hp. reflexivity.
  - destruct (Ascii.eqb c "."); [|intros [= <- <-]; reflexivity].
    destruct (digits1 s) as [[d r']|] eqn:Hd; [|discriminate].
    rewrite (digits1_app s rest d r' Hrest Hd). simpl.
    intros [= <- <-]. reflexivity.
Qed.

Lemma exp_app (s rest e r : string) :
  ends_value rest = true -> exp s = Some (e, r) ->
  exp (s +:+ rest) = Some (e, r +:+ rest).
Proof.
  intros Hrest. destruct s as [|c s]; simpl.
  - intros [= <- <-]. destruct rest as [|c r]; [reflexivity|].
    destruct (ends_value_no_digit c r Hrest) as (_ & _ & He & HE & _). simpl.
    rewrite He, HE. reflexivity.
  - destruct (Ascii.eqb c "e" || Ascii.eqb c "E");
      [|intros [= <- <-]; reflexivity].
    destruct s as [|c' s'].
    + discriminate.
    + unfold sign. cbn [append].
      destruct (Ascii.eqb c' "-" || Ascii.eqb c' "+").
      * destruct (digits1 s') as [[d r']|] eqn:Hd; [|discriminate].
        rewrite (digits1_app s' rest d r' Hrest Hd). simpl.
        intros [= <- <-]. reflexivity.
      * destruct (digits1 (String c' s')) as [[d r']|] eqn:Hd; [|discriminate].
        change (String c' (s' +:+ rest)) with (String c' s' +:+ rest).
        rewrite (digits1_app _ rest d r' Hrest Hd). simpl.
        intros [= <- <-]. reflexivity.
Qed.

Lemma read_number_app (s rest l r : string) :
  ends_value rest = true -> read_number s = Some (l, r) ->
  read_number (s +:+ rest) = Some (l, r +:+ rest).
Proof.
  intros Hrest. unfold read_number.
  assert (Hm : minus s = (EmptyString, s) /\ minus (s +:+ rest) = (EmptyString, s +:+ rest)
               \/ (exists s', s = String "-" s' /\ minus s = ("-", s')
                              /\ minus (s +:+ rest) = ("-", s' +:+ rest))
               \/ s = EmptyString).
  { destruct s as [|c s']; [right; right; reflexivity|]. simpl.
    destruct (Ascii.eqb_spec c "-") as [->|_].
    - right; left. exists s'. auto.
    - left. auto. }
  destruct Hm as [[Hm Hm']|[(s' & Hs & Hm & Hm')|Hs]]; [| |subst s; discriminate].
  - rewrite Hm, Hm'.
    destruct (int s) as [[i s2]|] eqn:Hi; [|discriminate].
    rewrite (int_app _ rest _ _ Hrest Hi).
    destruct (frac s2) as [[f s3]|] eqn:Hf; [|discriminate].
    rewrite (frac_app _ rest _ _ Hrest Hf).
    destruct (exp s3) as [[e s4]|] eqn:He; [|discriminate].
    rewrite (exp_app _ rest _ _ Hrest He).
    intros [= <- <-]. reflexivity.
  - rewrite Hm, Hm'.
    destruct (int s') as [[i s2]|] eqn:Hi; [|discriminate].
    rewrite (int_app _ rest _ _ Hrest Hi).
    destruct (frac s2) as [[f s3]|] eqn:Hf; [|discriminate].
    rewrite (frac_app _ rest _ _ Hrest Hf).
    destruct (exp s3) as [[e s4]|] eqn:He; [|discriminate].
    rewrite (exp_app _ rest _ _ Hrest He).
    intros [= <- <-]. reflexivity.
Qed.

(** A number starts with a minus or a digit. *)
Lemma digits1_head (c : ascii) (s d r : string) :
  digits1 (String c s) = Some (d, r) -> is_digit c = true.
Proof.
  unfold digits1. simpl. destruct (is_digit c); [reflexivity|discriminate].
Qed.

Lemma read_number_head (c : ascii) (s l r : string) :
  read_number (String c s) = Some (l, r) ->
  Ascii.eqb c "-" = true \/ is_digit c = true.
Proof.
  unfold read_number. simpl. destruct (Ascii.eqb c "-"); [auto|].
  intros H. right. simpl in H.
  destruct (Ascii.eqb_spec c "0") as [->|_]; [reflexivity|].
  destruct (digits1 (String c s)) as [[d r']|] eqn:Hd; [|discriminate].
  apply (digits1_head c s d r' Hd).
Qed.

Lemma is_digit_cases (c : ascii) :
  is_digit c = true ->
  In c ["0"; "1"; "2"; "3"; "4"; "5"; "6"; "7"; "8"; "9"]%char.
Proof.
  destruct c as [[] [] [] [] [] [] [] []]; intros H; try discriminate H;
    simpl; tauto.
Qed.

Lemma number_is_no_other_token (c : ascii) :
  Ascii.eqb c "-" = true \/ is_digit c = true ->
  is_space c = false /\ Ascii.eqb c "{" = false /\ Ascii.eqb c "[" = false
  /\ Ascii.eqb c dquote = false /\ Ascii.eqb c "t" = false
  /\ Ascii.eqb c "f" = false /\ Ascii.eqb c "n" = false
  /\ Ascii.eqb c "]" = false /\ Ascii.eqb c "}" = false.
Proof.
  intros [H|H].
  - apply Ascii.eqb_eq in H. subst c. repeat split; reflexivity.
  - apply is_digit_cases in H. simpl in H.
    repeat (destruct H as [<-|H]; [repeat split; reflexivity|]).
    destruct H.
Qed.

Lemma value_number (n : nat) (d : N) (ws lit rest : string) :
  blank ws = true -> is_number lit = true -> ends_value rest = true ->
  value (S n) d (ws +:+ lit +:+ rest) = Some (JNumber lit, rest).
Proof.
  intros Hws Hlit Hrest. unfold is_number in Hlit.
  destruct (read_number lit) as [[l [|? ?]]|] eqn:Hn; try discriminate.
  apply String.eqb_eq in Hlit. subst l.
  destruct lit as [|c lit']; [discriminate|].
  destruct (number_is_no_other_token c (read_number_head c lit' _ _ Hn))
    as (Hsp & H1 & H2 & H3 & H4 & H5 & H6 & _).
  cbn [value]. cbn [append]. rewrite (skip_ws_at ws c _ Hws Hsp).
  rewrite H1, H2, H3, H4, H5, H6.
  change (String c (lit' +:+ rest)) with (String c lit' +:+ rest).
  rewrite (read_number_app _ rest _ _ Hrest Hn). reflexivity.
Qed.

Lemma ends_value_blank (ws : string) (c : ascii) (r : string) :
  blank ws = true ->
  Ascii.eqb c "," || Ascii.eqb c "]" || Ascii.eqb c "}" = true ->
  ends_value (ws +:+ String c r) = true.
Proof.
  intros Hws Hc. destruct ws as [|s ws]; simpl.
  - destruct (is_space c), (Ascii.eqb c ","), (Ascii.eqb c "]"),
      (Ascii.eqb c "}"); try reflexivity; discriminate Hc.
  - simpl in Hws. apply andb_true_iff in Hws as [-> _]. reflexivity.
Qed.

Lemma ends_value_all_blank (ws : string) :
  blank ws = true -> ends_value ws = true.
Proof.
  destruct ws as [|s ws]; simpl; [reflexivity|].
  intros Hws. apply andb_true_iff in Hws as [-> _]. reflexivity.
Qed.

(** What a value, the elements of an array and the members of an object
    start with. *)
Lemma Denotes_head (d : N) (t : string) (j : json) :
  Denotes d t j ->
  exists c t', t = String c t' /\ is_space c = false
               /\ Ascii.eqb c "]" = false /\ Ascii.eqb c "}" = false.
Proof.
  destruct 1 as [d|d|d|d lit Hlit|d s t Hq|d ws Hd Hws|d ws xs t Hd Hws He
                |d ws Hd Hws|d ws kvs t Hd Hws Hp];
    try (eexists _, _; repeat split; reflexivity).
  unfold is_number in Hlit.
  destruct (read_number lit) as [[l r]|] eqn:Hn; [|discriminate].
  destruct lit as [|c lit']; [discriminate|].
  destruct (number_is_no_other_token c (read_number_head c lit' _ _ Hn))
    as (Hsp & _ & _ & _ & _ & _ & _ & H7 & H8).
  exists c, lit'. auto.
Qed.

Lemma Elems_head (d : N) (xs : list json) (t : string) :
  Elems d xs t ->
  exists c t', t = String c t' /\ is_space c = false
               /\ Ascii.eqb c "]" = false.
Proof.
  destruct 1 as [d x t ws Hx Hws|d x t ws ws' xs t' Hx Hws Hws' He];
    destruct (Denotes_head _ _ _ Hx) as (c & t0 & -> & Hsp & Hc & _);
    eexists c, _; (split; [reflexivity|auto]).
Qed.

Lemma Pairs_head (d : N) (kvs : list (string * json)) (t : string) :
  Pairs d kvs t -> exists t', t = String dquote t'.
Proof. destruct 1; eexists; reflexivity. Qed.

Ltac measure H :=
  repeat first [rewrite append_length in H
               | progress cbn [String.length append] in H].

Ltac flatten :=
  repeat first [rewrite append_assoc | progress cbn [append]].

Lemma reader_complete :
  (forall d t j, Denotes d t j ->
     forall fuel ws rest,
       blank ws = true -> ends_value rest = true -> String.length t <= fuel ->
       value fuel d (ws +:+ t +:+ rest) = Some (canon j, rest))
  /\ (forall d xs t, Elems d xs t ->
     forall fuel ws rest,
       blank ws = true -> String.length t <= fuel ->
       elements fuel d (ws +:+ t +:+ rest) = Some (map canon xs, rest))
  /\ (forall d kvs t, Pairs d kvs t ->
     forall fuel ws rest,
       blank ws = true -> String.length t <= fuel ->
       pairs fuel d (ws +:+ t +:+ rest)
         = Some (map (fun kv => let '(k, v) := kv in (toValidUTF8 k, canon v))
                     kvs, rest)).
Proof.
  apply Denotes_Elems_Pairs.
  - (* null *)
    intros d [|n] ws rest Hws _ Hlen; [simpl in Hlen; lia|].
    cbn [value]. cbn [append]. rewrite (skip_ws_at ws "n" _ Hws eq_refl).
    reflexivity.
  - intros d [|n] ws rest Hws _ Hlen; [simpl in Hlen; lia|].
    cbn [value]. cbn [append]. rewrite (skip_ws_at ws "t" _ Hws eq_refl).
    reflexivity.
  - intros d [|n] ws rest Hws _ Hlen; [simpl in Hlen; lia|].
    cbn [value]. cbn [append]. rewrite (skip_ws_at ws "f" _ Hws eq_refl).
    reflexivity.
  - (* number *)
    intros d lit Hlit [|n] ws rest Hws Hrest Hlen.
    + destruct lit; [discriminate Hlit|simpl in Hlen; lia].
    + apply value_number; assumption.
  - (* string *)
    intros d s t Hq [|n] ws rest Hws _ Hlen; [simpl in Hlen; lia|].
    cbn [value]. flatten. rewrite (skip_ws_at ws dquote _ Hws eq_refl).
    change (Ascii.eqb dquote "{") with false.
    change (Ascii.eqb dquote "[") with false.
    change (Ascii.eqb dquote dquote) with true. cbv iota.
    rewrite (read_string_complete s t _ Hq). reflexivity.
  - (* empty array *)
    intros d ws0 Hd Hws0 [|n] ws rest Hws _ Hlen; [simpl in Hlen; lia|].
    cbn [value]. flatten. rewrite (skip_ws_at ws "[" _ Hws eq_refl).
    change (Ascii.eqb "[" "{") with false.
    change (Ascii.eqb "[" "[") with true. cbv iota.
    apply N.ltb_lt in Hd. rewrite Hd.
    rewrite (skip_ws_at ws0 "]" _ Hws0 eq_refl). reflexivity.
  - (* array *)
    intros d ws0 xs t Hd Hws0 He IH [|n] ws rest Hws _ Hlen;
      [simpl in Hlen; lia|].
    cbn [value]. flatten. rewrite (skip_ws_at ws "[" _ Hws eq_refl).
    change (Ascii.eqb "[" "{") with false.
    change (Ascii.eqb "[" "[") with true. cbv iota.
    apply N.ltb_lt in Hd. rewrite Hd.
    destruct (Elems_head _ _ _ He) as (c & t' & Ht & Hsp & Hc).
    rewrite Ht at 1. cbn [append]. rewrite (skip_ws_at ws0 c _ Hws0 Hsp), Hc.
    change (String c (t' +:+ rest)) with (EmptyString +:+ String c t' +:+ rest).
    rewrite <- Ht, IH; [reflexivity|reflexivity|].
    measure Hlen. lia.
  - (* empty object *)
    intros d ws0 Hd Hws0 [|n] ws rest Hws _ Hlen; [simpl in Hlen; lia|].
    cbn [value]. flatten. rewrite (skip_ws_at ws "{" _ Hws eq_refl).
    change (Ascii.eqb "{" "{") with true. cbv iota.
    apply N.ltb_lt in Hd. rewrite Hd.
    rewrite (skip_ws_at ws0 "}" _ Hws0 eq_refl). reflexivity.
  - (* object *)
    intros d ws0 kvs t Hd Hws0 Hp IH [|n] ws rest Hws _ Hlen;
      [simpl in Hlen; lia|].
    cbn [value]. flatten. rewrite (skip_ws_at ws "{" _ Hws eq_refl).
    change (Ascii.eqb "{" "{") with true. cbv iota.
    apply N.ltb_lt in Hd. rewrite Hd.
    destruct (Pairs_head _ _ _ Hp) as (t' & Ht).
    rewrite Ht at 1. cbn [append].
    rewrite (skip_ws_at ws0 dquote _ Hws0 eq_refl).
    change (Ascii.eqb dquote "}") with false. cbv iota.
    change (String dquote (t' +:+ rest))
      with (EmptyString +:+ String dquote t' +:+ rest).
    rewrite <- Ht, IH; [reflexivity|reflexivity|].
    measure Hlen. lia.
  - (* the last element *)
    intros d x t ws0 Hx IH Hws0 [|n] ws rest Hws Hlen.
    { destruct (Denotes_head _ _ _ Hx) as (c & t' & -> & _).
      simpl in Hlen. lia. }
    cbn [elements]. flatten.
    measure Hlen.
    rewrite IH;
      [|assumption|apply ends_value_blank; [assumption|reflexivity]|lia].
    rewrite (skip_ws_at ws0 "]" _ Hws0 eq_refl). reflexivity.
  - (* an element and more *)
    intros d x t ws0 ws1 xs t' Hx IH Hws0 Hws1 He IH' [|n] ws rest Hws Hlen.
    { destruct (Denotes_head _ _ _ Hx) as (c & t0 & -> & _).
      simpl in Hlen. lia. }
    cbn [elements]. flatten.
    measure Hlen.
    rewrite IH;
      [|assumption|apply ends_value_blank; [assumption|reflexivity]|lia].
    rewrite (skip_ws_at ws0 "," _ Hws0 eq_refl).
    change (Ascii.eqb "," ",") with true. cbv iota.
    rewrite IH'; [reflexivity|assumption|lia].
  - (* the last member *)
    intros d k tk ws1 ws2 v tv ws3 Hk Hws1 Hws2 Hv IH Hws3
           [|n] ws rest Hws Hlen; [simpl in Hlen; lia|].
    cbn [pairs]. flatten.
    measure Hlen.
    rewrite (skip_ws_at ws dquote _ Hws eq_refl).
    change (Ascii.eqb dquote dquote) with true. cbv iota.
    rewrite (read_string_complete k tk _ Hk).
    rewrite (skip_ws_at ws1 ":" _ Hws1 eq_refl).
    change (Ascii.eqb ":" ":") with true. cbv iota.
    rewrite IH;
      [|assumption|apply ends_value_blank; [assumption|reflexivity]|lia].
    rewrite (skip_ws_at ws3 "}" _ Hws3 eq_refl). reflexivity.
  - (* a member and more *)
    intros d k tk ws1 ws2 v tv ws3 ws4 kvs t' Hk Hws1 Hws2 Hv IH Hws3 Hws4
           Hp IH' [|n] ws rest Hws Hlen; [simpl in Hlen; lia|].
    cbn [pairs]. flatten.
    measure Hlen.
    rewrite (skip_ws_at ws dquote _ Hws eq_refl).
    change (Ascii.eqb dquote dquote) with true. cbv iota.
    rewrite (read_string_complete k tk _ Hk).
    rewrite (skip_ws_at ws1 ":" _ Hws1 eq_refl).
    change (Ascii.eqb ":" ":") with true. cbv iota.
    rewrite IH;
      [|assumption|apply ends_value_blank; [assumption|reflexivity]|lia].
    rewrite (skip_ws_at ws3 "," _ Hws3 eq_refl).
    change (Ascii.eqb "," ",") with true. cbv iota.
    rewrite IH'; [reflexivity|assumption|lia].
Qed.

(** Every text of a document is read, and read as that document with its
    strings made valid UTF-8. *)
Lemma parse_complete (t : string) (j : json) :
  Text t j -> parse t = Some (canon j).
Proof.
  intros (ws & t0 & ws' & Hws & Hws' & Hd & ->).
  unfold parse. destruct reader_complete as (Hv & _ & _).
  rewrite (Hv 0%N t0 j Hd _ ws ws' Hws (ends_value_all_blank ws' Hws')).
  - rewrite (skip_ws_all ws' Hws'). reflexivity.
  - rewrite !append_length. lia.
Qed.

End Reader.

(** ** Lookup in an encoded struct *)

Lemma assoc_app (k : string) (l1 l2 : list (string * json)) :
  assoc k (l1 ++ l2) =
    match assoc k l1 with
    | Some v => Some v
    | None => assoc k l2
    end.
Proof.
  induction l1 as [|[k' v] l1 IH]; simpl; [reflexivity|].
  destruct (String.eqb k k'); [reflexivity|apply IH].
Qed.

Lemma assoc_field {A : Type} `{Marshaler A} (k k' : string) (v : A) :
  assoc k (field k' v) =
    if String.eqb k k' then Some (MarshalJSON v) else None.
Proof. reflexivity. Qed.

Lemma assoc_field_omitempty {A : Type} `{Marshaler A} `{Emptiness A}
    (k k' : string) (v : A) :
  assoc k (field_omitempty k' v) =
    if String.eqb k k' then
      if isEmptyValue v then None else Some (MarshalJSON v)
    else None.
Proof.
  unfold field_omitempty.
  destruct (isEmptyValue v); simpl; destruct (String.eqb k k'); reflexivity.
Qed.

Lemma string_empty_spec (s : string) :
  isEmptyValue s = bool_decide (s = "").
Proof. destruct s; reflexivity. Qed.

Lemma slice_empty_spec {A : Type} (s : slice A) :
  isEmptyValue s = bool_decide (len s = 0).
Proof.
  unfold isEmptyValue, slice_empty.
  destruct (len s); reflexivity.
Qed.

(** Rewrites a lookup in the encoding of a struct into the contribution
    of the one field that carries the name. *)
Ltac lookup_field :=
  repeat rewrite assoc_app;
  repeat rewrite assoc_field;
  repeat rewrite assoc_field_omitempty;
  cbn [String.eqb Ascii.eqb Bool.eqb].

(** ** What the operations hand to the executor *)

Section OnAnyClient.
Context {W E : Type} (c : Client W E).

Lemma calls_AssignProfile (name uuid : string) (serials : slice string)
    (w : W) :
  calls (AssignProfile (spy c) name uuid serials) w =
    [ {| call_name := name;
         call_method := http.MethodPut;
         call_path := "/profile/devices";
         call_body := JObject [("profile_uuid", JString (toValidUTF8 uuid));
                               ("devices", MarshalJSON serials)] |} ].
Proof.
  unfold calls, AssignProfile, spy; simpl.
  destruct (do c _ _ _ _ _ w) as [[resp err] w']; reflexivity.
Qed.

Lemma calls_DefineProfile (name : string) (profile : ptr Profile.t)
    (w : W) :
  calls (DefineProfile (spy c) name profile) w =
    [ {| call_name := name;
         call_method := http.MethodPost;
         call_path := "/profile";
         call_body := MarshalJSON profile |} ].
Proof.
  unfold calls, DefineProfile, spy; simpl.
  destruct (do c _ _ _ _ _ w) as [[resp err] w']; reflexivity.
Qed.

Lemma calls_RemoveProfile (name : string) (devices : slice string)
    (w : W) :
  calls (RemoveProfile (spy c) name devices) w =
    [ {| call_name := name;
         call_method := http.MethodDelete;
         call_path := "/profile/devices";
         call_body := JObject [("devices", MarshalJSON devices)] |} ].
Proof.
  unfold calls, RemoveProfile, spy; simpl.
  destruct (do c _ _ _ _ _ w) as [[resp err] w']; reflexivity.
Qed.

(** C2.  Whatever the client, the configuration name, the profile UUID
    and the serial numbers, [AssignProfile] makes exactly one call of the
    executor, for that configuration name, with method PUT and path
    "/profile/devices"; PUT is not the POST of the current API
    documentation. *)
Theorem AssignProfile_issues_PUT (name uuid : string)
    (serials : slice string) (w : W) :
  map (fun k => (call_name k, call_method k, call_path k))
      (calls (AssignProfile (spy c) name uuid serials) w)
    = [(name, "PUT", "/profile/devices")]
  /\ http.MethodPut <> http.MethodPost.
Proof.
  rewrite calls_AssignProfile. split; [reflexivity|discriminate].
Qed.

(** C6.  [DefineProfile] always calls the executor with POST and
    "/profile", and [RemoveProfile] always with DELETE and
    "/profile/devices": one call each, the pairing the same for every
    client, configuration name and input. *)
Theorem DefineProfile_RemoveProfile_pairing (name : string)
    (profile : ptr Profile.t) (devices : slice string) (w : W) :
  map (fun k => (call_method k, call_path k))
      (calls (DefineProfile (spy c) name profile) w)
    = [("POST", "/profile")]
  /\ map (fun k => (call_method k, call_path k))
        (calls (RemoveProfile (spy c) name devices) w)
    = [("DELETE", "/profile/devices")].
Proof.
  rewrite calls_DefineProfile, calls_RemoveProfile. split; reflexivity.
Qed.

(** The shape of every operation's return: the cell [do] wrote, behind
    a non-nil pointer, next to the error [do] returned. *)
Lemma returned_with_pointer {V : Type} (x : (V * option E) * W) :
  is_Some (fst (fst (let '((r, e), w') := x in ((Some r, e), w'))))
  /\ snd (fst (let '((r, e), w') := x in ((Some r, e), w')))
     = snd (fst x).
Proof. destruct x as [[r e] w']. simpl. eauto. Qed.

(** C8.  Each of the three operations returns a non-nil response
    pointer, whatever error the executor produced, and returns that
    error as it is. *)
Theorem response_pointer_never_nil (name uuid : string)
    (serials : slice string) (profile : ptr Profile.t)
    (devices : slice string) (w : W) :
  (is_Some (fst (fst (AssignProfile c name uuid serials w)))
   /\ snd (fst (AssignProfile c name uuid serials w))
      = snd (fst (do c name http.MethodPut "/profile/devices"
                    (Some {| AssignProfileRequest.ProfileUUID := uuid;
                             AssignProfileRequest.Devices := serials |})
                    (zero : ProfileResponse.t) w)))
  /\ (is_Some (fst (fst (DefineProfile c name profile w)))
      /\ snd (fst (DefineProfile c name profile w))
         = snd (fst (do c name http.MethodPost "/profile" profile
                       (zero : DefineProfileResponse.t) w)))
  /\ (is_Some (fst (fst (RemoveProfile c name devices w)))
      /\ snd (fst (RemoveProfile c name devices w))
         = snd (fst (do c name http.MethodDelete "/profile/devices"
                       (Some {| RemoveProfileRequest.Devices := devices |})
                       (zero : ClearProfileResponse.t) w))).
Proof.
  unfold AssignProfile, DefineProfile, RemoveProfile.
  split; [|split]; apply returned_with_pointer.
Qed.

(** C9.  The body [RemoveProfile] sends is an object with exactly one
    member, "devices", holding the encoding of the given list; it has no
    "profile_uuid" member. *)
Theorem RemoveProfile_body_is_devices_only (name : string)
    (devices : slice string) (w : W) :
  map call_body (calls (RemoveProfile (spy c) name devices) w)
    = [JObject [("devices", MarshalJSON devices)]]
  /\ Forall (fun b => keys b = ["devices"]
                      /\ get "devices" b = Some (MarshalJSON devices)
                      /\ get "profile_uuid" b = None)
            (map call_body (calls (RemoveProfile (spy c) name devices) w)).
Proof.
  rewrite calls_RemoveProfile. split; [reflexivity|].
  repeat constructor.
Qed.
End OnAnyClient.

(** C3, as the code has it.  The verb of the assign-profile operation is
    a literal of the operation: any two clients, over whatever state and
    errors, with whatever arguments, are called with the same method and
    path, PUT and "/profile/devices". *)
Theorem AssignProfile_verb_is_a_literal {W1 E1 W2 E2 : Type}
    (c1 : Client W1 E1) (c2 : Client W2 E2)
    (name1 uuid1 name2 uuid2 : string) (serials1 serials2 : slice string)
    (w1 : W1) (w2 : W2) :
  map (fun k => (call_method k, call_path k))
      (calls (AssignProfile (spy c1) name1 uuid1 serials1) w1)
    = map (fun k => (call_method k, call_path k))
          (calls (AssignProfile (spy c2) name2 uuid2 serials2) w2)
  /\ map (fun k => (call_method k, call_path k))
        (calls (AssignProfile (spy c1) name1 uuid1 serials1) w1)
    = [(http.MethodPut, "/profile/devices")].
Proof.
  rewrite !calls_AssignProfile. split; reflexivity.
Qed.

(** C3, as stated, fails: no client, state or argument makes
    [AssignProfile] use a verb other than PUT, so the verb cannot be
    overridden per deployment. *)
Lemma AssignProfile_verb_not_overridable :
  ~ (exists (W E : Type) (c : Client W E) (name uuid : string)
            (serials : slice string) (w : W),
       map call_method (calls (AssignProfile (spy c) name uuid serials) w)
         <> ["PUT"]).
Proof.
  intros (W & E & c & name & uuid & serials & w & Hne).
  apply Hne. rewrite calls_AssignProfile. reflexivity.
Qed.

(** ** The encoding of [Profile] *)

Lemma get_Profile (k : string) (p : Profile.t) :
  get k (MarshalJSON p) = assoc k (Profile.fields p).
Proof. reflexivity. Qed.

(** C10.  The encoding of every [Profile] has the members "profile_name",
    "url", "org_magic" and "is_mdm_removable", holding the fields as they
    are, zero or not (so "is_mdm_removable" is [false] for a profile that
    leaves it unset); each member tagged [omitempty] is present exactly
    when its field is not empty, hence absent at the zero value.  A
    string is held as the encoder writes it, as valid UTF-8. *)
Theorem Profile_encoding (p : Profile.t) :
  (get "profile_name" (MarshalJSON p) = Some (JString (toValidUTF8 (Profile.ProfileName p)))
   /\ get "url" (MarshalJSON p) = Some (JString (toValidUTF8 (Profile.URL p)))
   /\ get "org_magic" (MarshalJSON p) = Some (JString (toValidUTF8 (Profile.OrgMagic p)))
   /\ get "is_mdm_removable" (MarshalJSON p)
      = Some (JBool (Profile.IsMDMRemovable p)))
  /\ get "is_mdm_removable" (MarshalJSON (zero : Profile.t))
     = Some (JBool false)
  /\ (get "allow_pairing" (MarshalJSON p)
      = (if Profile.AllowPairing p then Some (JBool true) else None)
     /\ get "is_supervised" (MarshalJSON p)
      = (if Profile.IsSupervised p then Some (JBool true) else None)
     /\ get "is_multi_user" (MarshalJSON p)
      = (if Profile.IsMultiUser p then Some (JBool true) else None)
     /\ get "is_mandatory" (MarshalJSON p)
      = (if Profile.IsMandatory p then Some (JBool true) else None)
     /\ get "await_device_configured" (MarshalJSON p)
      = (if Profile.AwaitDeviceConfigured p then Some (JBool true) else None)
     /\ get "auto_advance_setup" (MarshalJSON p)
      = (if Profile.AutoAdvanceSetup p then Some (JBool true) else None))
  /\ (get "support_phone_number" (MarshalJSON p)
      = (if bool_decide (Profile.SupportPhoneNumber p = "") then None
         else Some (JString (toValidUTF8 (Profile.SupportPhoneNumber p))))
     /\ get "support_email_address" (MarshalJSON p)
      = (if bool_decide (Profile.SupportEmailAddress p = "") then None
         else Some (JString (toValidUTF8 (Profile.SupportEmailAddress p))))
     /\ get "department" (MarshalJSON p)
      = (if bool_decide (Profile.Department p = "") then None
         else Some (JString (toValidUTF8 (Profile.Department p))))
     /\ get "language" (MarshalJSON p)
      = (if bool_decide (Profile.Language p = "") then None
         else Some (JString (toValidUTF8 (Profile.Language p))))
     /\ get "region" (MarshalJSON p)
      = (if bool_decide (Profile.Region p = "") then None
         else Some (JString (toValidUTF8 (Profile.Region p))))
     /\ get "configuration_web_url" (MarshalJSON p)
      = (if bool_decide (Profile.ConfigurationWebURL p = "") then None
         else Some (JString (toValidUTF8 (Profile.ConfigurationWebURL p))))
     /\ get "profile_uuid" (MarshalJSON p)
      = (if bool_decide (Profile.ProfileUUID p = "") then None
         else Some (JString (toValidUTF8 (Profile.ProfileUUID p)))))
  /\ (get "anchor_certs" (MarshalJSON p)
      = (if bool_decide (len (Profile.AnchorCerts p) = 0) then None
         else Some (MarshalJSON (Profile.AnchorCerts p)))
     /\ get "supervising_host_certs" (MarshalJSON p)
      = (if bool_decide (len (Profile.SupervisingHostCerts p) = 0) then None
         else Some (MarshalJSON (Profile.SupervisingHostCerts p)))
     /\ get "devices" (MarshalJSON p)
      = (if bool_decide (len (Profile.Devices p) = 0) then None
         else Some (MarshalJSON (Profile.Devices p)))
     /\ get "skip_setup_items" (MarshalJSON p)
      = (if bool_decide (len (Profile.SkipSetupItems p) = 0) then None
         else Some (MarshalJSON (Profile.SkipSetupItems p)))).
Proof.
  rewrite !get_Profile. unfold Profile.fields.
  repeat split; lookup_field;
    rewrite <- ?string_empty_spec, <- ?slice_empty_spec;
    try reflexivity;
    match goal with
    | |- context [isEmptyValue ?v] =>
      first [ solve [destruct (isEmptyValue v); reflexivity]
            | solve [destruct v; reflexivity] ]
    end.
Qed.

(** ** The session manager and the request executor *)

(** Unfolds the state-passing combinators. *)
Ltac run :=
  unfold mbind, mret, state_bind, state_ret, gets, modify, log, on_remote,
    cache in *;
  simpl in *.

Lemma filter_snoc {A : Type} (f : A -> bool) (l : list A) (x : A) :
  List.filter f (l ++ [x]) = List.filter f l ++ (if f x then [x] else []).
Proof. rewrite List.filter_app. reflexivity. Qed.

Lemma is_2xx_not_4xx (st : Z) : is_2xx st = true -> is_4xx st = false.
Proof. unfold is_2xx, is_4xx. lia. Qed.

Section Executor.
Context {S : Type} (env : Remote S).

Lemma EnsureSession_cached (name : string) (t : Token) (w : World S) :
  sessions w !! name = Some t -> EnsureSession env name w = (inr t, w).
Proof. intros Hc. unfold EnsureSession. run. rewrite Hc. reflexivity. Qed.

(** A session is established without sending any request, with at most
    one handshake, and the token it returns is the cached one. *)
Lemma EnsureSession_effect (name : string) (w w' : World S)
    (r : Error + Token) :
  EnsureSession env name w = (r, w') ->
  sends w' = sends w
  /\ handshakes w' <= 1 + handshakes w
  /\ attempts w' = attempts w
  /\ (forall t, r = inr t -> sessions w' !! name = Some t).
Proof.
  unfold EnsureSession, sends, handshakes, attempts. run.
  destruct (sessions w !! name) as [t|] eqn:Hc.
  - intros [= <- <-]. repeat split; [lia|]. intros t' [= <-]. exact Hc.
  - destruct (Get env name (remote w)) as [msg| |creds].
    + intros [= <- <-]. repeat split; [lia|discriminate].
    + intros [= <- <-]. repeat split; [lia|discriminate].
    + destruct (authenticate env name creds (remote w)) as [[t|msg|msg] s'];
        intros [= <- <-]; simpl; rewrite !filter_snoc; simpl;
        rewrite ?length_app, ?app_nil_r; simpl;
        repeat split; try lia; try discriminate.
      intros t' [= <-]. apply lookup_insert_eq.
Qed.

Lemma Invalidate_effect (name : string) (w : World S) :
  sessions (snd (Invalidate name w)) = delete name (sessions w)
  /\ remote (snd (Invalidate name w)) = remote w
  /\ sends (snd (Invalidate name w)) = sends w
  /\ handshakes (snd (Invalidate name w)) = handshakes w
  /\ attempts (snd (Invalidate name w)) = attempts w.
Proof.
  unfold Invalidate, sends, handshakes, attempts. run.
  rewrite !filter_snoc, !app_nil_r. auto.
Qed.

Section Attempt.
Context (name method path : string) (rb : option json).

(** An attempt begins steps 1 to 4 once, sends at most one request and
    makes at most one handshake; it sends exactly one request when it
    ends in a response. *)
Lemma attempt_effect (w w' : World S) (r : Error + Response) :
  attempt env name method path rb w = (r, w') ->
  sends w <= sends w' <= 1 + sends w
  /\ handshakes w' <= 1 + handshakes w
  /\ attempts w' = 1 + attempts w
  /\ (forall resp, r = inr resp -> sends w' = 1 + sends w).
Proof.
  unfold attempt. run.
  match goal with
  | |- context [EnsureSession env name ?w0] =>
    destruct (EnsureSession env name w0) as [[e|tok] w1] eqn:Hs;
      destruct (EnsureSession_effect _ _ _ _ Hs) as (Hn & Hh & Ha & _)
  end;
    unfold sends, handshakes, attempts in Hn, Hh, Ha; simpl in Hn, Hh, Ha;
    rewrite !filter_snoc, ?length_app in Hn, Hh, Ha; simpl in Hn, Hh, Ha.
  - intros [= <- <-]. unfold sends, handshakes, attempts.
    repeat split; try lia. discriminate.
  - destruct (send env _ (remote w1)) as [[msg|resp] s'];
      intros [= <- <-]; unfold sends, handshakes, attempts; simpl;
      rewrite !filter_snoc, !length_app; simpl;
      repeat split; try lia; discriminate.
Qed.




Lemma attempt_got (w w' : World S) (resp : Response) :
  attempt env name method path rb w = (inr resp, w') ->
  sends w' = 1 + sends w.
Proof.
  intros Ha. destruct (attempt_effect _ _ _ Ha) as (_ & _ & _ & Hr).
  eapply Hr. reflexivity.
Qed.

(** A response that is no authentication failure settles the exchange. *)
Lemma exchange_settles (w w1 : World S) (resp : Response) :
  attempt env name method path rb w = (inr resp, w1) ->
  auth_failure env resp = false ->
  exchange env name method path rb w = (inr resp, w1).
Proof.
  intros Ha Hf. unfold exchange. run. rewrite Ha, Hf. reflexivity.
Qed.

(** After an authentication failure the exchange is what the second
    attempt gives, and nothing is done after it. *)
Lemma exchange_retries (w w1 : World S) (resp : Response) :
  attempt env name method path rb w = (inr resp, w1) ->
  auth_failure env resp = true ->
  exchange env name method path rb w
    = settle_second env name
        (attempt env name method path rb (snd (Invalidate name w1))).
Proof.
  intros Ha Hf. unfold exchange. run. rewrite Ha, Hf.
  unfold settle_second, Invalidate. run.
  match goal with
  | |- context [attempt env name method path rb ?w2] =>
    destruct (attempt env name method path rb w2) as [[e|resp'] w3]
  end; simpl; [reflexivity|].
  destruct (auth_failure env resp'); reflexivity.
Qed.

Lemma settle_second_effect (r : (Error + Response) * World S) :
  sends (snd (settle_second env name r)) = sends (snd r)
  /\ handshakes (snd (settle_second env name r)) = handshakes (snd r)
  /\ attempts (snd (settle_second env name r)) = attempts (snd r).
Proof.
  destruct r as [[e|resp'] w2]; simpl; [auto|].
  destruct (auth_failure env resp'); simpl; [|auto].
  destruct (Invalidate_effect name w2) as (_ & _ & Hn & Hh & Ha). auto.
Qed.

(** An exchange sends at most two requests. *)
Lemma exchange_sends (w w' : World S) (r : Error + Response) :
  exchange env name method path rb w = (r, w') ->
  sends w <= sends w' <= 2 + sends w.
Proof.
  destruct (attempt env name method path rb w) as [[e|resp] w1] eqn:Ha;
    pose proof (attempt_effect _ _ _ Ha) as (Hle & _).
  - unfold exchange. run. rewrite Ha. intros [= <- <-]. lia.
  - destruct (auth_failure env resp) eqn:Hf.
    + rewrite (exchange_retries _ _ _ Ha Hf).
      destruct (Invalidate_effect name w1) as (_ & _ & Hn & _).
      destruct (attempt env name method path rb (snd (Invalidate name w1)))
        as [r2 w2] eqn:Ha2.
      pose proof (attempt_effect _ _ _ Ha2) as (Hle2 & _).
      pose proof (settle_second_effect (r2, w2)) as (Hs2 & _).
      intros Heq. rewrite Heq in Hs2. cbn [snd] in Hs2. lia.
    + rewrite (exchange_settles _ _ _ Ha Hf). intros [= <- <-]. lia.
Qed.

Context {V : Type} `{Unmarshaler V} (out : V).

(** Step 6: the response the exchange settled on is decoded, and nothing
    more is done. *)
Lemma Execute_exchange (w : World S) :
  Execute env name method path rb out w =
    (match fst (exchange env name method path rb w) with
     | inl e => inl e
     | inr resp => Decode env (status resp) (body resp) out
     end,
     snd (exchange env name method path rb w)).
Proof.
  unfold Execute. run.
  destruct (exchange env name method path rb w) as [[e|resp] w']; reflexivity.
Qed.

Lemma Execute_decodes (w w1 : World S) (resp : Response) :
  attempt env name method path rb w = (inr resp, w1) ->
  auth_failure env resp = false ->
  Execute env name method path rb out w
    = (Decode env (status resp) (body resp) out, w1).
Proof.
  intros Ha Hf. rewrite Execute_exchange, (exchange_settles _ _ _ Ha Hf).
  reflexivity.
Qed.

End Attempt.
End Executor.

(** ** Decoding *)

(** C5.  A 2xx status whose body does not parse as the expected shape is
    decoded to a [ProtocolError], never to a value (the decoder is a total
    function, so it always answers); and a request answered that way is
    not retried: [Execute] returns the error in the state the one attempt
    left, with exactly one request sent. *)
Theorem unparseable_2xx_is_ProtocolError {S : Type} (env : Remote S)
    {V : Type} `{Unmarshaler V} (st : Z) (text : string) (out : V)
    (H2xx : is_2xx st = true)
    (Hbad : parse_as text out = None) :
  Decode env st text out = inl (failure ProtocolError st text)
  /\ forall (name method path : string) (rb : option json) (w w1 : World S),
       attempt env name method path rb w
         = (inr {| status := st; body := text |}, w1) ->
       Execute env name method path rb out w
         = (inl (failure ProtocolError st text), w1)
       /\ sends w1 = 1 + sends w.
Proof.
  assert (HD : Decode env st text out = inl (failure ProtocolError st text)).
  { unfold Decode. rewrite H2xx, Hbad. reflexivity. }
  split; [exact HD|].
  intros name method path rb w w1 Ha. split.
  - rewrite (Execute_decodes env name method path rb out w w1 _ Ha).
    + simpl. rewrite HD. reflexivity.
    + unfold auth_failure. simpl. rewrite (is_2xx_not_4xx _ H2xx). reflexivity.
  - eapply attempt_got. exact Ha.
Qed.

Lemma unparseable_2xx_witness :
  Decode Double.remote 200 "<html>Bad Gateway</html>" (zero : ProfileResponse.t)
    = inl (failure ProtocolError 200 "<html>Bad Gateway</html>")
  /\ fst (Execute Double.remote "acme" "PUT" "/profile/devices" None
            (zero : ProfileResponse.t)
            (Double.acme [Granted "t1"; Granted "t2"]
                         [inr Double.garbled; inr Double.batch]))
     = inl (failure ProtocolError 200 "<html>Bad Gateway</html>")
  /\ sends (snd (Execute Double.remote "acme" "PUT" "/profile/devices" None
                   (zero : ProfileResponse.t)
                   (Double.acme [Granted "t1"; Granted "t2"]
                                [inr Double.garbled; inr Double.batch])))
     = 1.
Proof.
  destruct (unparseable_2xx_is_ProtocolError Double.remote 200
              "<html>Bad Gateway</html>" (zero : ProfileResponse.t)
              eq_refl eq_refl) as [HD HE].
  split; [exact HD|].
  destruct (HE "acme" "PUT" "/profile/devices" None
              (Double.acme [Granted "t1"; Granted "t2"]
                           [inr Double.garbled; inr Double.batch])
              (snd (attempt Double.remote "acme" "PUT" "/profile/devices" None
                      (Double.acme [Granted "t1"; Granted "t2"]
                                   [inr Double.garbled; inr Double.batch])))
              eq_refl) as [HX Hn].
  rewrite HX. split; [reflexivity|exact Hn].
Defined.

(** ** Re-authentication *)



(** When the new handshake fails, the second run of steps 1 to 4 ends at
    step 1: the failure of the handshake is returned and the request does
    not go out a second time, although the service would have answered
    it. *)
Example reissue_needs_a_new_session :
  fst (attempt Double.remote "acme" "PUT" "/profile/devices" None
         (Double.acme [Granted "t1"] [inr Double.expired; inr Double.batch]))
    = inr Double.expired
  /\ auth_failure Double.remote Double.expired = true
  /\ fst (Execute Double.remote "acme" "PUT" "/profile/devices" None
            (zero : ProfileResponse.t)
            (Double.acme [Granted "t1"]
               [inr Double.expired; inr Double.batch]))
     = inl (failure TransportError 0 "no route to host")
  /\ attempts (snd (Execute Double.remote "acme" "PUT" "/profile/devices" None
                      (zero : ProfileResponse.t)
                      (Double.acme [Granted "t1"]
                         [inr Double.expired; inr Double.batch])))
     = 2
  /\ sends (snd (Execute Double.remote "acme" "PUT" "/profile/devices" None
                   (zero : ProfileResponse.t)
                   (Double.acme [Granted "t1"]
                      [inr Double.expired; inr Double.batch])))
     = 1.
Proof. repeat split. Qed.

(** ** Partial success *)

Lemma unmarshal_statuses (statuses : list (string * string))
    (m : gmap string string) :
  fold_left store_member
            (map (fun kv => (fst kv, JString (snd kv))) statuses) (Some m)
    = Some (fold_left (fun m kv => <[fst kv := snd kv]> m) statuses m).
Proof.
  revert m. induction statuses as [|[k v] rest IH]; intros m; simpl.
  - reflexivity.
  - apply IH.
Qed.

Lemma fold_insert_foldr (l : list (string * string)) (m : gmap string string) :
  fold_left (fun m kv => <[fst kv := snd kv]> m) l m
    = foldr (fun kv m => <[fst kv := snd kv]> m) m (reverse l).
Proof.
  revert m. induction l as [|kv l IH]; intros m; simpl; [reflexivity|].
  rewrite IH, reverse_cons, foldr_app. reflexivity.
Qed.

(** The map the decoder builds from the members in order is the one in
    which a later member of a name replaces an earlier one. *)
Lemma unmarshal_devices (statuses : list (string * string)) :
  UnmarshalJSON (JObject (map (fun kv => (fst kv, JString (snd kv))) statuses))
                (zero : gmap string string)
    = Some (list_to_map (reverse statuses)).
Proof.
  unfold UnmarshalJSON, map_unmarshal.
  rewrite unmarshal_statuses, fold_insert_foldr. reflexivity.
Qed.

Lemma statuses_verbatim (statuses : list (string * string)) :
  NoDup (fst <$> statuses) ->
  Forall (fun kv => (list_to_map (reverse statuses) : gmap string string)
                      !! fst kv = Some (snd kv)) statuses.
Proof.
  intros Hnd. apply Forall_forall. intros [k v] Hin. simpl.
  apply elem_of_list_to_map_1.
  - rewrite fmap_reverse, reverse_Permutation. exact Hnd.
  - apply elem_of_reverse. exact Hin.
Qed.

(** The scenario of the spec: the service answers with the batch result
    in which one device failed; the caller sees both statuses and no
    error. *)
Example one_device_failed :
  fst (AssignProfile (client Double.remote) "acme" "P1" (Some ["S1"; "S2"])
         (Double.acme [Granted "t1"] [inr Double.batch]))
    = (Some {| ProfileResponse.ProfileUUID := "P1";
               ProfileResponse.Devices :=
                 {[ "S1" := "SUCCESS"; "S2" := "NOT_ACCESSIBLE" ]} |},
       None).
Proof. vm_compute. reflexivity. Qed.

(** The scenario of the spec: the service answers 401 with the marker,
    then 200 with a valid body; the caller sees the decoded value and no
    error, two requests went out, and the new token is the cached one. *)
Example expired_then_success :
  let r := AssignProfile (client Double.remote) "acme" "P1" (Some ["S1"; "S2"])
             (Double.acme [Granted "t1"; Granted "t2"]
                          [inr Double.expired; inr Double.batch]) in
  fst r = (Some {| ProfileResponse.ProfileUUID := "P1";
                   ProfileResponse.Devices :=
                     {[ "S1" := "SUCCESS"; "S2" := "NOT_ACCESSIBLE" ]} |},
           None)
  /\ sends (snd r) = 2
  /\ handshakes (snd r) = 2
  /\ sessions (snd r) !! "acme" = Some "t2".
Proof. vm_compute. repeat split. Qed.

(** ** Further facts about profile.go *)

(** The body [AssignProfile] sends is the object with the members
    "profile_uuid" and "devices", in that order, holding the UUID (as
    valid UTF-8) and the encoding of the serial numbers; called without
    serial numbers, the variadic parameter is nil and "devices" is
    [null]. *)
Theorem AssignProfile_body {W E : Type} (c : Client W E)
    (name uuid : string) (serials : slice string) (w : W) :
  map call_body (calls (AssignProfile (spy c) name uuid serials) w)
    = [JObject [("profile_uuid", JString (toValidUTF8 uuid));
                ("devices", MarshalJSON serials)]]
  /\ map call_body (calls (AssignProfile (spy c) name uuid None) w)
     = [JObject [("profile_uuid", JString (toValidUTF8 uuid)); ("devices", JNull)]].
Proof. rewrite !calls_AssignProfile. split; reflexivity. Qed.

(** Each operation changes the state only through its one call of the
    executor: the state it leaves is the state [do] left. *)
Theorem operations_leave_the_state_of_do {W E : Type} (c : Client W E)
    (name uuid : string) (serials : slice string) (profile : ptr Profile.t)
    (devices : slice string) (w : W) :
  snd (AssignProfile c name uuid serials w)
    = snd (do c name http.MethodPut "/profile/devices"
             (Some {| AssignProfileRequest.ProfileUUID := uuid;
                      AssignProfileRequest.Devices := serials |}
              : ptr AssignProfileRequest.t)
             (zero : ProfileResponse.t) w)
  /\ snd (DefineProfile c name profile w)
     = snd (do c name http.MethodPost "/profile" profile
              (zero : DefineProfileResponse.t) w)
  /\ snd (RemoveProfile c name devices w)
     = snd (do c name http.MethodDelete "/profile/devices"
              (Some {| RemoveProfileRequest.Devices := devices |}
               : ptr RemoveProfileRequest.t)
              (zero : ClearProfileResponse.t) w).
Proof.
  unfold AssignProfile, DefineProfile, RemoveProfile.
  repeat split;
    match goal with
    | |- snd (let '(_, _) := ?x in _) = _ => destruct x as [[resp err] w']
    end; reflexivity.
Qed.

(** A [Profile] with no field set is encoded with exactly the four
    members that are not tagged [omitempty], in declaration order. *)
Theorem Profile_zero_encoding :
  MarshalJSON (zero : Profile.t)
    = JObject [("profile_name", JString ""); ("url", JString "");
               ("is_mdm_removable", JBool false); ("org_magic", JString "")].
Proof. reflexivity. Qed.

(** ** The encoding of [Profile], member by member *)

Lemma keys_field {A : Type} `{Marshaler A} (k : string) (v : A) :
  map fst (field k v) = [k].
Proof. reflexivity. Qed.

Lemma keys_field_omitempty {A : Type} `{Marshaler A} `{Emptiness A}
    (k : string) (v : A) :
  map fst (field_omitempty k v) `sublist_of` [k].
Proof.
  unfold field_omitempty. destruct (isEmptyValue v); simpl.
  - apply sublist_nil_l.
  - reflexivity.
Qed.

(** The member names of an encoded [Profile] are names of the struct
    tags, in declaration order, each at most once; there are at least the
    four that are not tagged [omitempty] and at most all twenty-one. *)
Theorem Profile_members_in_declaration_order (p : Profile.t) :
  keys (MarshalJSON p) `sublist_of` Profile.tags
  /\ NoDup (keys (MarshalJSON p))
  /\ 4 <= length (keys (MarshalJSON p)) <= 21.
Proof.
  assert (Hsub : keys (MarshalJSON p) `sublist_of` Profile.tags).
  { unfold keys, members, MarshalJSON, Profile.marshal, Profile.fields.
    rewrite !map_app.
    change Profile.tags with
      (["profile_name"] ++ ["url"] ++ ["allow_pairing"] ++ ["is_supervised"]
       ++ ["is_multi_user"] ++ ["is_mandatory"] ++ ["await_device_configured"]
       ++ ["is_mdm_removable"] ++ ["support_phone_number"]
       ++ ["auto_advance_setup"] ++ ["support_email_address"]
       ++ ["org_magic"] ++ ["anchor_certs"] ++ ["supervising_host_certs"]
       ++ ["department"] ++ ["devices"] ++ ["language"] ++ ["region"]
       ++ ["configuration_web_url"] ++ ["skip_setup_items"]
       ++ ["profile_uuid"]).
    repeat (apply sublist_app;
            [first [apply keys_field_omitempty | reflexivity]|]).
    apply keys_field_omitempty. }
  split; [exact Hsub|]. split.
  - refine (sublist_NoDup _ _ _ Hsub).
    apply (bool_decide_unpack (NoDup Profile.tags)). vm_compute. exact I.
  - split.
    + unfold keys, members, MarshalJSON, Profile.marshal, Profile.fields.
      rewrite !map_app, !length_app, !keys_field. simpl length. lia.
    + apply sublist_length in Hsub. exact Hsub.
Qed.

(** ** Request bodies *)

Lemma strings_marshal_inj (l l' : list string) :
  map (MarshalJSON : string -> json) l = map MarshalJSON l'
  <-> map toValidUTF8 l = map toValidUTF8 l'.
Proof.
  revert l'. induction l as [|x l IH]; intros [|x' l']; simpl;
    try (split; [reflexivity|reflexivity]);
    try (split; discriminate).
  split.
  - intros [= Hx Hl]. f_equal; [exact Hx|]. apply IH, Hl.
  - intros [= Hx Hl]. unfold MarshalJSON at 1 3, string_marshal.
    rewrite Hx. f_equal. apply IH, Hl.
Qed.

(** A nil slice, an empty slice and any two slices of strings that differ
    in more than bytes that are not valid UTF-8 are encoded differently. *)
Lemma slice_marshal_inj (s s' : slice string) :
  MarshalJSON s = MarshalJSON s' <-> written s = written s'.
Proof.
  destruct s as [l|], s' as [l'|]; simpl;
    try (split; [reflexivity|reflexivity]);
    try (split; discriminate).
  change (MarshalJSON (Some l)) with (JArray (map MarshalJSON l)).
  change (MarshalJSON (Some l')) with (JArray (map MarshalJSON l')).
  split.
  - intros [= Hl]. f_equal. apply strings_marshal_inj, Hl.
  - intros [= Hl]. f_equal. apply strings_marshal_inj, Hl.
Qed.

(** The bodies [AssignProfile] and [RemoveProfile] send determine their
    arguments as far as the encoding keeps them, that is up to the bytes
    that are not valid UTF-8, each of which is written as U+FFFD: two
    calls of [AssignProfile] send the same body exactly when their UUIDs
    and their serial numbers (nil and empty told apart) are the same once
    made valid UTF-8, two calls of [RemoveProfile] exactly when their
    devices are; which client, configuration name or state makes no
    difference. *)
Theorem request_bodies_determine_arguments {W E W' E' : Type}
    (c : Client W E) (c' : Client W' E') (name name' uuid uuid' : string)
    (serials serials' : slice string) (w : W) (w' : W') :
  (map call_body (calls (AssignProfile (spy c) name uuid serials) w)
     = map call_body (calls (AssignProfile (spy c') name' uuid' serials') w')
   <-> toValidUTF8 uuid = toValidUTF8 uuid'
       /\ written serials = written serials')
  /\ (map call_body (calls (RemoveProfile (spy c) name serials) w)
        = map call_body (calls (RemoveProfile (spy c') name' serials') w')
      <-> written serials = written serials').
Proof.
  rewrite !calls_AssignProfile, !calls_RemoveProfile. simpl. split; split.
  - intros [= Hu Hs]. split; [exact Hu|]. apply slice_marshal_inj, Hs.
  - intros [Hu Hs]. apply slice_marshal_inj in Hs. rewrite Hu, Hs.
    reflexivity.
  - intros [= Hs]. apply slice_marshal_inj, Hs.
  - intros Hs. apply slice_marshal_inj in Hs. rewrite Hs. reflexivity.
Qed.

(** [DefineProfile] hands the profile to the executor as it is, without
    looking into it: a nil profile still makes the one call, with the body
    [null]; any other profile is sent in its encoding, so the body always
    carries "is_mdm_removable" with the value of the field, [false] when
    the caller left it unset, together with "profile_name", "url" and
    "org_magic". *)
Theorem DefineProfile_body {W E : Type} (c : Client W E) (name : string)
    (p : Profile.t) (w : W) :
  map call_body (calls (DefineProfile (spy c) name None) w) = [JNull]
  /\ map call_body (calls (DefineProfile (spy c) name (Some p)) w)
     = [JObject (Profile.fields p)]
  /\ Forall (fun b =>
               get "is_mdm_removable" b = Some (JBool (Profile.IsMDMRemovable p))
               /\ get "profile_name" b = Some (JString (toValidUTF8 (Profile.ProfileName p)))
               /\ get "url" b = Some (JString (toValidUTF8 (Profile.URL p)))
               /\ get "org_magic" b = Some (JString (toValidUTF8 (Profile.OrgMagic p))))
            (map call_body (calls (DefineProfile (spy c) name (Some p)) w)).
Proof.
  rewrite !calls_DefineProfile. split; [reflexivity|]. split; [reflexivity|].
  simpl. constructor; [|constructor].
  change (MarshalJSON (Some p)) with (MarshalJSON p).
  rewrite !get_Profile. unfold Profile.fields.
  repeat split; lookup_field; reflexivity.
Qed.

(** ** Decoding the responses *)

Section Structs.
Context {V : Type} (names : list string)
        (set : string -> json -> V -> option V).

Lemma store_field_failed (kvs : list (string * json)) :
  fold_left (store_field names set) kvs None = None.
Proof. induction kvs as [|kv kvs IH]; simpl; [reflexivity|exact IH]. Qed.

(** Members that select no field can be dropped from a document. *)
Lemma store_field_skips (kvs : list (string * json)) (acc : option V) :
  fold_left (store_field names set) kvs acc
    = fold_left (store_field names set) (List.filter (selects names) kvs) acc.
Proof.
  revert acc. induction kvs as [|kv kvs IH]; intros acc; simpl;
    [reflexivity|].
  unfold selects at 1. destruct (select names (fst kv)) as [n|] eqn:Hsel.
  - simpl. apply IH.
  - rewrite <- IH. f_equal.
    destruct acc as [v|]; simpl; [rewrite Hsel|]; reflexivity.
Qed.

(** One member its field refuses makes the whole document fail, wherever
    it stands and whatever the other members are. *)
Lemma store_field_refused (kvs : list (string * json)) (k n : string)
    (x : json) (acc : option V) :
  In (k, x) kvs ->
  select names k = Some n ->
  (forall v, set n x v = None) ->
  fold_left (store_field names set) kvs acc = None.
Proof.
  intros Hin Hsel Hset. revert acc.
  induction kvs as [|kv kvs IH]; intros acc; [destruct Hin|].
  destruct Hin as [->|Hin]; simpl.
  - destruct acc as [v|]; simpl; [rewrite Hsel, Hset|];
      apply store_field_failed.
  - apply IH. exact Hin.
Qed.
End Structs.

(** ** Partial success *)

(** A batch result decodes into the response structure member by member,
    whichever of the two members comes first. *)
Lemma unmarshal_batch (ku kd p : string) (statuses : list (string * string))
    (kvs : list (string * json)) :
  select ["profile_uuid"; "devices"] ku = Some "profile_uuid" ->
  select ["profile_uuid"; "devices"] kd = Some "devices" ->
  kvs = [(ku, JString p);
         (kd, JObject (map (fun kv => (fst kv, JString (snd kv))) statuses))]
  \/ kvs = [(kd, JObject (map (fun kv => (fst kv, JString (snd kv))) statuses));
            (ku, JString p)] ->
  fold_left (store_field ["profile_uuid"; "devices"] ProfileResponse.set)
            kvs (Some (zero : ProfileResponse.t))
    = Some {| ProfileResponse.ProfileUUID := p;
              ProfileResponse.Devices := list_to_map (reverse statuses) |}.
Proof.
  intros Hku Hkd Hkvs. pose proof (unmarshal_devices statuses) as Hd.
  destruct Hkvs as [->| ->]; cbn [fold_left]; unfold store_field;
    cbn [fst snd]; rewrite Hku, Hkd; unfold ProfileResponse.set;
    cbn [String.eqb Ascii.eqb Bool.eqb].
  - change (UnmarshalJSON (JString p) (ProfileResponse.ProfileUUID zero))
      with (Some p).
    cbn [ProfileResponse.Devices ProfileResponse.ProfileUUID].
    change (ProfileResponse.Devices zero) with (zero : gmap string string).
    rewrite Hd. reflexivity.
  - change (ProfileResponse.Devices zero) with (zero : gmap string string).
    rewrite Hd. reflexivity.
Qed.

(** C1.  When the response the executor settles on for the request of
    [AssignProfile] has a 2xx status and its body is the text of a batch
    result, the call returns the decoded [ProfileResponse] holding the
    UUID and every per-device status as the body has them, with a nil
    error, whatever the statuses say.  A batch result is any text of an
    object in which the members the response structure reads are one for
    the profile UUID, a string, and one for the per-device map, an object
    of strings, in either order; what the structure does not read may
    stand anywhere between them, and so may white space.  The members are
    taken as the text is read, that is with their strings made valid
    UTF-8. *)
Theorem AssignProfile_partial_success {S : Type} (env : Remote S)
    (name uuid : string) (serials : slice string) (w w1 : World S)
    (resp : Response) (j : json) (ku kd p : string)
    (statuses : list (string * string))
    (Hanswer : exchange env name http.MethodPut "/profile/devices"
                 (Some (JObject [("profile_uuid", JString (toValidUTF8 uuid));
                                 ("devices", MarshalJSON serials)])) w
               = (inr resp, w1))
    (H2xx : is_2xx (status resp) = true)
    (Hbody : Text (body resp) j)
    (Hku : select ["profile_uuid"; "devices"] ku = Some "profile_uuid")
    (Hkd : select ["profile_uuid"; "devices"] kd = Some "devices")
    (Hbatch :
       List.filter (selects ["profile_uuid"; "devices"]) (members (canon j))
         = [(ku, JString p);
            (kd, JObject (map (fun kv => (fst kv, JString (snd kv)))
                              statuses))]
       \/ List.filter (selects ["profile_uuid"; "devices"])
                      (members (canon j))
            = [(kd, JObject (map (fun kv => (fst kv, JString (snd kv)))
                                 statuses));
               (ku, JString p)]) :
  AssignProfile (client env) name uuid serials w
    = ((Some {| ProfileResponse.ProfileUUID := p;
                ProfileResponse.Devices := list_to_map (reverse statuses) |},
        None), w1)
  /\ (NoDup (fst <$> statuses) ->
      Forall (fun kv => (list_to_map (reverse statuses) : gmap string string)
                          !! fst kv = Some (snd kv)) statuses).
Proof.
  split; [|apply statuses_verbatim].
  unfold AssignProfile, client. cbn [do].
  change (MarshalJSON (Some {| AssignProfileRequest.ProfileUUID := uuid;
                               AssignProfileRequest.Devices := serials |}
                       : ptr AssignProfileRequest.t))
    with (JObject [("profile_uuid", JString (toValidUTF8 uuid));
                   ("devices", MarshalJSON serials)]).
  rewrite Execute_exchange, Hanswer. cbn [fst snd].
  unfold Decode, parse_as. rewrite H2xx, (parse_complete _ _ Hbody).
  assert (Hdec : UnmarshalJSON (canon j) (zero : ProfileResponse.t)
                 = Some {| ProfileResponse.ProfileUUID := p;
                           ProfileResponse.Devices :=
                             list_to_map (reverse statuses) |}).
  { destruct (canon j) as [|b|lit|s|xs|kvs];
      try (destruct Hbatch as [Hb|Hb]; discriminate Hb).
    unfold UnmarshalJSON, ProfileResponse.unmarshal, unmarshal_struct.
    rewrite store_field_skips.
    apply (unmarshal_batch ku kd p statuses _ Hku Hkd Hbatch). }
  rewrite Hdec. reflexivity.
Qed.

(** The text of [Double.batch_loose], taken apart. *)
Example batch_loose_text :
  Text (body Double.batch_loose)
       (JObject [("devices", JObject [("S1", JString "SUCCESS");
                                      ("S2", JString "NOT_ACCESSIBLE")]);
                 ("note", JNumber "1");
                 ("profile_uuid", JString "P1")]).
Proof.
  assert (Hq : forall s, forallb literal_ok (list_ascii_of_string s) = true ->
                         Quoted s s).
  { induction s as [|c s IH]; simpl; [constructor|].
    intros H. apply andb_true_iff in H as [Hc Hs].
    constructor; [exact Hc|apply IH, Hs]. }
  exists "", (body Double.batch_loose), "".
  split; [reflexivity|]. split; [reflexivity|]. split; [|reflexivity].
  refine (D_object 0 " " _
            (wire "'devices': {'S1':'SUCCESS', 'S2':'NOT_ACCESSIBLE'}, 'note': 1, 'profile_uuid': 'P1' }")
            eq_refl eq_refl _).
  refine (P_more 1 "devices" "devices" "" " " _
            (wire "{'S1':'SUCCESS', 'S2':'NOT_ACCESSIBLE'}") "" " " _
            (wire "'note': 1, 'profile_uuid': 'P1' }")
            (Hq "devices" eq_refl) eq_refl eq_refl _ eq_refl eq_refl _).
  - refine (D_object 1 "" _ (wire "'S1':'SUCCESS', 'S2':'NOT_ACCESSIBLE'}")
              eq_refl eq_refl _).
    refine (P_more 2 "S1" "S1" "" "" _ (wire "'SUCCESS'") "" " " _
              (wire "'S2':'NOT_ACCESSIBLE'}")
              (Hq "S1" eq_refl) eq_refl eq_refl _ eq_refl eq_refl _).
    + exact (D_string 2 "SUCCESS" "SUCCESS" (Hq "SUCCESS" eq_refl)).
    + refine (P_last 2 "S2" "S2" "" "" _ (wire "'NOT_ACCESSIBLE'") ""
                (Hq "S2" eq_refl) eq_refl eq_refl _ eq_refl).
      exact (D_string 2 "NOT_ACCESSIBLE" "NOT_ACCESSIBLE"
                       (Hq "NOT_ACCESSIBLE" eq_refl)).
  - refine (P_more 1 "note" "note" "" " " _ "1" "" " " _
              (wire "'profile_uuid': 'P1' }")
              (Hq "note" eq_refl) eq_refl eq_refl _ eq_refl eq_refl _).
    + exact (D_number 1 "1" eq_refl).
    + refine (P_last 1 "profile_uuid" "profile_uuid" "" " " _ (wire "'P1'") " "
                (Hq "profile_uuid" eq_refl) eq_refl eq_refl _ eq_refl).
      exact (D_string 1 "P1" "P1" (Hq "P1" eq_refl)).
Qed.

Lemma AssignProfile_partial_success_witness :
  AssignProfile (client Double.remote) "acme" "P1" (Some ["S1"; "S2"])
                (Double.acme [Granted "t1"] [inr Double.batch_loose])
    = ((Some {| ProfileResponse.ProfileUUID := "P1";
                ProfileResponse.Devices :=
                  list_to_map (reverse [("S1", "SUCCESS");
                                        ("S2", "NOT_ACCESSIBLE")]) |},
        None),
       snd (exchange Double.remote "acme" "PUT" "/profile/devices"
              (Some (JObject [("profile_uuid", JString "P1");
                              ("devices", JArray [JString "S1"; JString "S2"])]))
              (Double.acme [Granted "t1"] [inr Double.batch_loose])))
  /\ (list_to_map (reverse [("S1", "SUCCESS"); ("S2", "NOT_ACCESSIBLE")])
        : gmap string string) !! "S2" = Some "NOT_ACCESSIBLE".
Proof.
  destruct (AssignProfile_partial_success Double.remote "acme" "P1"
              (Some ["S1"; "S2"])
              (Double.acme [Granted "t1"] [inr Double.batch_loose])
              (snd (exchange Double.remote "acme" "PUT" "/profile/devices"
                      (Some (JObject [("profile_uuid", JString "P1");
                                      ("devices",
                                       JArray [JString "S1"; JString "S2"])]))
                      (Double.acme [Granted "t1"] [inr Double.batch_loose])))
              Double.batch_loose _ "profile_uuid" "devices" "P1"
              [("S1", "SUCCESS"); ("S2", "NOT_ACCESSIBLE")]
              eq_refl eq_refl batch_loose_text eq_refl eq_refl
              (or_intror eq_refl)) as [Hcall Hall].
  split; [exact Hcall|]. reflexivity.
Defined.

(** Decoding any of the three responses looks only at the members whose
    name selects one of the struct's tags (exactly, or else without regard
    to case): all other members can be dropped from the document without
    changing the outcome, a value or a failure. *)
Theorem responses_ignore_other_members (kvs : list (string * json))
    (r : ProfileResponse.t) (d : DefineProfileResponse.t)
    (c : ClearProfileResponse.t) :
  UnmarshalJSON (JObject kvs) r
    = UnmarshalJSON
        (JObject (List.filter (selects ["profile_uuid"; "devices"]) kvs)) r
  /\ UnmarshalJSON (JObject kvs) d
     = UnmarshalJSON
         (JObject (List.filter (selects ["profile_uuid"; "devices"]) kvs)) d
  /\ UnmarshalJSON (JObject kvs) c
     = UnmarshalJSON (JObject (List.filter (selects ["devices"]) kvs)) c.
Proof.
  repeat split; apply store_field_skips.
Qed.

(** The per-device map of [ProfileResponse] and [ClearProfileResponse]
    and the device list of [DefineProfileResponse] do not read the same
    documents.  A document with a member named "devices" that is neither
    an object nor [null] decodes as neither of the first two, and one with
    a "devices" member that is neither an array nor [null] does not decode
    as the third, wherever the member stands and whatever else the
    document holds. *)
Theorem devices_member_shape (kvs : list (string * json)) (x : json)
    (Hin : In ("devices", x) kvs) :
  match x with
  | JObject _ | JNull => True
  | _ =>
    UnmarshalJSON (JObject kvs) (zero : ProfileResponse.t) = None
    /\ UnmarshalJSON (JObject kvs) (zero : ClearProfileResponse.t) = None
  end
  /\ match x with
     | JArray _ | JNull => True
     | _ => UnmarshalJSON (JObject kvs) (zero : DefineProfileResponse.t) = None
     end.
Proof.
  destruct x as [|b|lit|s|xs|ms]; repeat split;
    (eapply store_field_refused; [exact Hin|reflexivity|]);
    intros v; reflexivity.
Qed.

Lemma devices_member_shape_witness :
  (UnmarshalJSON (JObject [("profile_uuid", JString "P1");
                           ("devices", JArray [JString "S1"])])
                 (zero : ProfileResponse.t) = None
   /\ UnmarshalJSON (JObject [("profile_uuid", JString "P1");
                              ("devices", JArray [JString "S1"])])
                    (zero : ClearProfileResponse.t) = None)
  /\ True.
Proof.
  apply (devices_member_shape
           [("profile_uuid", JString "P1"); ("devices", JArray [JString "S1"])]
           (JArray [JString "S1"])).
  right. left. reflexivity.
Defined.

Lemma select_devices_only (k : string) :
  select ["devices"] k
    = match select ["profile_uuid"; "devices"] k with
      | Some n => if String.eqb n "devices" then Some n else None
      | None => None
      end.
Proof.
  unfold select. cbn [find].
  destruct (String.eqb_spec k "profile_uuid") as [->|Hk1]; [reflexivity|].
  destruct (String.eqb_spec k "devices") as [->|Hk2]; [reflexivity|].
  change (foldName "profile_uuid") with "PROFILE_UUID".
  change (foldName "devices") with "DEVICES".
  destruct (String.eqb_spec "PROFILE_UUID" (foldName k)) as [Hf1|Hf1];
    destruct (String.eqb_spec "DEVICES" (foldName k)) as [Hf2|Hf2];
    try reflexivity.
  rewrite <- Hf2 in Hf1. discriminate Hf1.
Qed.

(** The two structs agree on the members of a document, step by step. *)
Lemma clear_follows_profile (kvs : list (string * json))
    (r r' : ProfileResponse.t) (c : ClearProfileResponse.t) :
  ClearProfileResponse.Devices c = ProfileResponse.Devices r ->
  fold_left (store_field ["profile_uuid"; "devices"] ProfileResponse.set)
            kvs (Some r) = Some r' ->
  exists c',
    fold_left (store_field ["devices"] ClearProfileResponse.set) kvs (Some c)
      = Some c'
    /\ ClearProfileResponse.Devices c' = ProfileResponse.Devices r'.
Proof.
  revert r c. induction kvs as [|[k x] kvs IH]; intros r c Hd; simpl.
  - intros [= <-]. eauto.
  - rewrite select_devices_only.
    destruct (select ["profile_uuid"; "devices"] k) as [n|]; [|apply IH, Hd].
    unfold ProfileResponse.set, ClearProfileResponse.set.
    destruct (String.eqb n "profile_uuid") eqn:Hn1.
    + apply String.eqb_eq in Hn1 as ->. cbn [String.eqb Ascii.eqb Bool.eqb].
      destruct (UnmarshalJSON x (ProfileResponse.ProfileUUID r)) as [u|];
        [apply IH, Hd|].
      rewrite store_field_failed. discriminate.
    + destruct (String.eqb n "devices") eqn:Hn2; [|apply IH, Hd].
      rewrite Hn2, Hd.
      destruct (UnmarshalJSON x (ProfileResponse.Devices r)) as [m|];
        [apply IH; reflexivity|].
      rewrite store_field_failed. discriminate.
Qed.

(** Every document that decodes as a [ProfileResponse] also decodes as a
    [ClearProfileResponse], with the same per-device map: the second
    struct is the first without the profile UUID. *)
Theorem ProfileResponse_decodes_as_ClearProfileResponse (j : json)
    (r : ProfileResponse.t)
    (Hr : UnmarshalJSON j (zero : ProfileResponse.t) = Some r) :
  UnmarshalJSON j (zero : ClearProfileResponse.t)
    = Some {| ClearProfileResponse.Devices := ProfileResponse.Devices r |}.
Proof.
  destruct j as [|b|lit|s|xs|kvs]; try discriminate Hr.
  - injection Hr as <-. reflexivity.
  - assert (Hz : ClearProfileResponse.Devices zero
                 = ProfileResponse.Devices zero) by reflexivity.
    destruct (clear_follows_profile kvs zero r zero Hz Hr)
      as ([m] & Hc & Hm).
    simpl in Hm. rewrite <- Hm. exact Hc.
Qed.

Lemma ProfileResponse_decodes_as_ClearProfileResponse_witness :
  UnmarshalJSON
    (JObject [("profile_uuid", JString "P1");
              ("devices", JObject [("S1", JString "SUCCESS")])])
    (zero : ClearProfileResponse.t)
  = Some {| ClearProfileResponse.Devices := {[ "S1" := "SUCCESS" ]} |}.
Proof.
  exact (ProfileResponse_decodes_as_ClearProfileResponse
           (JObject [("profile_uuid", JString "P1");
                     ("devices", JObject [("S1", JString "SUCCESS")])])
           {| ProfileResponse.ProfileUUID := "P1";
              ProfileResponse.Devices := {[ "S1" := "SUCCESS" ]} |}
           eq_refl).
Defined.

(** ** [Profile]: encoding and reading back *)

Lemma unmarshal_strings (l old : list string) :
  unmarshal_elements (map MarshalJSON l) old = Some (map toValidUTF8 l).
Proof.
  revert old. induction l as [|x l IH]; intros old; simpl; [reflexivity|].
  rewrite IH. reflexivity.
Qed.

Lemma roundtrip_string (v old : string) :
  UnmarshalJSON (MarshalJSON v) old = Some (toValidUTF8 v).
Proof. reflexivity. Qed.

Lemma roundtrip_bool (v old : bool) :
  UnmarshalJSON (MarshalJSON v) old = Some (id v).
Proof. reflexivity. Qed.

Lemma roundtrip_slice (v old : slice string) :
  UnmarshalJSON (MarshalJSON v) old = Some (written v).
Proof.
  destruct v as [l|]; [|reflexivity].
  unfold MarshalJSON, slice_marshal, UnmarshalJSON, slice_unmarshal.
  rewrite unmarshal_strings. reflexivity.
Qed.

Section ProfileField.
Context {A : Type} `{Marshaler A} `{Unmarshaler A} `{Emptiness A}.
Context (k : string) (proj : Profile.t -> A) (wth : A -> Profile.t -> Profile.t).
Context (back : A -> A).
Context (Hstep : forall x r,
           store_field Profile.tags Profile.set (Some r) (k, x)
             = option_map (fun v => wth v r) (UnmarshalJSON x (proj r))).
Context (Hrt : forall v old : A,
           UnmarshalJSON (MarshalJSON v) old = Some (back v)).

(** A member written for a field is read back into that field. *)
Lemma decode_field (v : A) (r : Profile.t) :
  fold_left (store_field Profile.tags Profile.set) (field k v) (Some r)
    = Some (wth (back v) r).
Proof. unfold field. cbn [fold_left]. rewrite Hstep, Hrt. reflexivity. Qed.

Context (Heta : forall r, wth (proj r) r = r).

(** A member left out leaves the field as it was. *)
Lemma decode_field_omitempty (v : A) (r : Profile.t) :
  fold_left (store_field Profile.tags Profile.set) (field_omitempty k v)
            (Some r)
    = Some (wth (if isEmptyValue v then proj r else back v) r).
Proof.
  unfold field_omitempty. destruct (isEmptyValue v); cbn [fold_left].
  - rewrite Heta. reflexivity.
  - rewrite Hstep, Hrt. reflexivity.
Qed.
End ProfileField.

(** The side conditions of the two lemmas above, for a given field. *)
Ltac field_conditions :=
  first [ intros ? ?; reflexivity
        | intros []; reflexivity
        | apply roundtrip_string
        | apply roundtrip_bool
        | apply roundtrip_slice ].

Lemma trim_spec (s : slice string) :
  (if isEmptyValue s then None else written s) = written (trim s).
Proof. destruct s as [[|x l]|]; reflexivity. Qed.

Lemma empty_string_spec (s : string) :
  (if isEmptyValue s then EmptyString else toValidUTF8 s) = toValidUTF8 s.
Proof. destruct s; reflexivity. Qed.

(** Brings the value read so far back to a record of plain fields. *)
Ltac settle :=
  cbv [Profile.ProfileName Profile.URL Profile.AllowPairing
       Profile.IsSupervised Profile.IsMultiUser Profile.IsMandatory
       Profile.AwaitDeviceConfigured Profile.IsMDMRemovable
       Profile.SupportPhoneNumber Profile.AutoAdvanceSetup
       Profile.SupportEmailAddress Profile.OrgMagic Profile.AnchorCerts
       Profile.SupervisingHostCerts Profile.Department Profile.Devices
       Profile.Language Profile.Region Profile.ConfigurationWebURL
       Profile.SkipSetupItems Profile.ProfileUUID
       Profile.with_ProfileName Profile.with_URL Profile.with_AllowPairing
       Profile.with_IsSupervised Profile.with_IsMultiUser
       Profile.with_IsMandatory Profile.with_AwaitDeviceConfigured
       Profile.with_IsMDMRemovable Profile.with_SupportPhoneNumber
       Profile.with_AutoAdvanceSetup Profile.with_SupportEmailAddress
       Profile.with_OrgMagic Profile.with_AnchorCerts
       Profile.with_SupervisingHostCerts Profile.with_Department
       Profile.with_Devices Profile.with_Language Profile.with_Region
       Profile.with_ConfigurationWebURL Profile.with_SkipSetupItems
       Profile.with_ProfileUUID
       Profile.normalize zero Profile.zero_value string_zero bool_zero
       slice_zero id].

Lemma Profile_decode_encode (p : Profile.t) :
  UnmarshalJSON (MarshalJSON p) (zero : Profile.t)
    = Some (Profile.normalize p).
Proof.
  unfold UnmarshalJSON, Profile.unmarshal, unmarshal_struct.
  unfold MarshalJSON at 1, Profile.marshal, Profile.fields.
  rewrite !fold_left_app. destruct p. settle.
  rewrite (decode_field "profile_name" Profile.ProfileName Profile.with_ProfileName
             toValidUTF8)
    by field_conditions; settle.
  rewrite (decode_field "url" Profile.URL Profile.with_URL
             toValidUTF8)
    by field_conditions; settle.
  rewrite (decode_field_omitempty "allow_pairing" Profile.AllowPairing Profile.with_AllowPairing
             id)
    by field_conditions; settle.
  rewrite (decode_field_omitempty "is_supervised" Profile.IsSupervised Profile.with_IsSupervised
             id)
    by field_conditions; settle.
  rewrite (decode_field_omitempty "is_multi_user" Profile.IsMultiUser Profile.with_IsMultiUser
             id)
    by field_conditions; settle.
  rewrite (decode_field_omitempty "is_mandatory" Profile.IsMandatory Profile.with_IsMandatory
             id)
    by field_conditions; settle.
  rewrite (decode_field_omitempty "await_device_configured" Profile.AwaitDeviceConfigured Profile.with_AwaitDeviceConfigured
             id)
    by field_conditions; settle.
  rewrite (decode_field "is_mdm_removable" Profile.IsMDMRemovable Profile.with_IsMDMRemovable
             id)
    by field_conditions; settle.
  rewrite (decode_field_omitempty "support_phone_number" Profile.SupportPhoneNumber Profile.with_SupportPhoneNumber
             toValidUTF8)
    by field_conditions; settle.
  rewrite (decode_field_omitempty "auto_advance_setup" Profile.AutoAdvanceSetup Profile.with_AutoAdvanceSetup
             id)
    by field_conditions; settle.
  rewrite (decode_field_omitempty "support_email_address" Profile.SupportEmailAddress Profile.with_SupportEmailAddress
             toValidUTF8)
    by field_conditions; settle.
  rewrite (decode_field "org_magic" Profile.OrgMagic Profile.with_OrgMagic
             toValidUTF8)
    by field_conditions; settle.
  rewrite (decode_field_omitempty "anchor_certs" Profile.AnchorCerts Profile.with_AnchorCerts
             written)
    by field_conditions; settle.
  rewrite (decode_field_omitempty "supervising_host_certs" Profile.SupervisingHostCerts Profile.with_SupervisingHostCerts
             written)
    by field_conditions; settle.
  rewrite (decode_field_omitempty "department" Profile.Department Profile.with_Department
             toValidUTF8)
    by field_conditions; settle.
  rewrite (decode_field_omitempty "devices" Profile.Devices Profile.with_Devices
             written)
    by field_conditions; settle.
  rewrite (decode_field_omitempty "language" Profile.Language Profile.with_Language
             toValidUTF8)
    by field_conditions; settle.
  rewrite (decode_field_omitempty "region" Profile.Region Profile.with_Region
             toValidUTF8)
    by field_conditions; settle.
  rewrite (decode_field_omitempty "configuration_web_url" Profile.ConfigurationWebURL Profile.with_ConfigurationWebURL
             toValidUTF8)
    by field_conditions; settle.
  rewrite (decode_field_omitempty "skip_setup_items" Profile.SkipSetupItems Profile.with_SkipSetupItems
             written)
    by field_conditions; settle.
  rewrite (decode_field_omitempty "profile_uuid" Profile.ProfileUUID Profile.with_ProfileUUID
             toValidUTF8)
    by field_conditions; settle.
  rewrite !trim_spec, !empty_string_spec.
  repeat f_equal;
    match goal with
    | |- (if isEmptyValue ?v then _ else _) = _ => destruct v; reflexivity
    end.
Qed.

Lemma written_trim_fixed (s : slice string) :
  written (trim s) = s <-> s <> Some [] /\ written s = s.
Proof.
  destruct s as [[|x l]|]; simpl; split.
  - discriminate.
  - intros [Hs _]. congruence.
  - intros Hs. split; [discriminate|exact Hs].
  - intros [_ Hs]. exact Hs.
  - intros _. split; [discriminate|reflexivity].
  - reflexivity.
Qed.

Lemma field_valid (k : string) (s : string) :
  field k (toValidUTF8 s) = field k s.
Proof.
  unfold field, MarshalJSON, string_marshal. rewrite toValidUTF8_idem.
  reflexivity.
Qed.

Lemma field_omitempty_valid (k : string) (s : string) :
  field_omitempty k (toValidUTF8 s) = field_omitempty k s.
Proof.
  unfold field_omitempty, isEmptyValue, string_empty, MarshalJSON,
    string_marshal.
  rewrite toValidUTF8_empty, toValidUTF8_idem. reflexivity.
Qed.

Lemma field_omitempty_trim (k : string) (s : slice string) :
  field_omitempty k (written (trim s)) = field_omitempty k s.
Proof.
  destruct s as [[|x l]|]; try reflexivity.
  change (written (trim (Some (x :: l))))
    with (Some (map toValidUTF8 (x :: l))).
  unfold field_omitempty.
  change (isEmptyValue (Some (map toValidUTF8 (x :: l)))) with false.
  change (isEmptyValue (Some (x :: l))) with false. cbv iota.
  do 2 f_equal. apply slice_marshal_inj.
  unfold written, option_map. f_equal. rewrite List.map_map.
  apply List.map_ext. intros a. apply toValidUTF8_idem.
Qed.

Lemma fields_normalize (p : Profile.t) :
  Profile.fields (Profile.normalize p) = Profile.fields p.
Proof.
  unfold Profile.fields, Profile.normalize.
  cbn [Profile.ProfileName Profile.URL Profile.AllowPairing
       Profile.IsSupervised Profile.IsMultiUser Profile.IsMandatory
       Profile.AwaitDeviceConfigured Profile.IsMDMRemovable
       Profile.SupportPhoneNumber Profile.AutoAdvanceSetup
       Profile.SupportEmailAddress Profile.OrgMagic Profile.AnchorCerts
       Profile.SupervisingHostCerts Profile.Department Profile.Devices
       Profile.Language Profile.Region Profile.ConfigurationWebURL
       Profile.SkipSetupItems Profile.ProfileUUID].
  rewrite !field_omitempty_trim, !field_omitempty_valid, !field_valid.
  reflexivity.
Qed.

(** Encoding a [Profile] and reading the encoding back into a fresh
    [Profile] always succeeds and gives the profile with its strings made
    valid UTF-8 and its empty slices made nil; so it gives back the very
    profile exactly when every string in it is valid UTF-8 and none of
    its four slices ("anchor_certs", "supervising_host_certs", "devices",
    "skip_setup_items") is empty without being nil. *)
Theorem Profile_round_trip (p : Profile.t) :
  UnmarshalJSON (MarshalJSON p) (zero : Profile.t)
    = Some (Profile.normalize p)
  /\ (UnmarshalJSON (MarshalJSON p) (zero : Profile.t) = Some p
      <-> Forall (fun s => toValidUTF8 s = s) (Profile.strings p)
          /\ Forall (fun s => s <> Some [] /\ written s = s)
                    (Profile.slices p)).
Proof.
  split; [apply Profile_decode_encode|].
  rewrite Profile_decode_encode.
  destruct p; unfold Profile.normalize, Profile.strings, Profile.slices;
    simpl.
  rewrite !Forall_cons, !Forall_nil, <- !written_trim_fixed. split.
  - intros H. injection H. intros. repeat apply conj; try assumption;
      exact I.
  - intros H. destruct_and!. do 2 f_equal; assumption.
Qed.

(** Two profiles have the same encoding exactly when they are the same
    once their strings are made valid UTF-8 and their empty slices nil:
    apart from bytes that are not valid UTF-8 and from an empty slice
    being nil or not, no difference between two profiles is lost on the
    wire. *)
Theorem Profile_encoding_injective (p q : Profile.t) :
  MarshalJSON p = MarshalJSON q
  <-> Profile.normalize p = Profile.normalize q.
Proof.
  split.
  - intros Heq.
    pose proof (Profile_decode_encode p) as Hp.
    rewrite Heq, Profile_decode_encode in Hp. congruence.
  - intros Heq. unfold MarshalJSON, Profile.marshal.
    rewrite <- (fields_normalize p), <- (fields_normalize q), Heq.
    reflexivity.
Qed.

(** ** Members a response does not have *)

Lemma ProfileResponse_kept (kvs : list (string * json))
    (r r' : ProfileResponse.t) :
  fold_left (store_field ["profile_uuid"; "devices"] ProfileResponse.set)
            kvs (Some r) = Some r' ->
  (Forall (fun kv => select ["profile_uuid"; "devices"] (fst kv)
                     <> Some "profile_uuid") kvs ->
   ProfileResponse.ProfileUUID r' = ProfileResponse.ProfileUUID r)
  /\ (Forall (fun kv => select ["profile_uuid"; "devices"] (fst kv)
                        <> Some "devices") kvs ->
      ProfileResponse.Devices r' = ProfileResponse.Devices r).
Proof.
  revert r. induction kvs as [|[k x] kvs IH]; intros r; simpl.
  - intros [= <-]. auto.
  - destruct (select ["profile_uuid"; "devices"] k) as [n|] eqn:Hsel.
    + unfold ProfileResponse.set.
      destruct (String.eqb_spec n "profile_uuid") as [->|Hn1].
      * destruct (UnmarshalJSON x (ProfileResponse.ProfileUUID r)) as [u|];
          [|rewrite store_field_failed; discriminate].
        intros Hr. destruct (IH _ Hr) as [_ Hd]. split.
        -- intros Hall. inversion Hall; subst. simpl in *. congruence.
        -- intros Hall. inversion Hall; subst. apply Hd. assumption.
      * destruct (String.eqb_spec n "devices") as [->|Hn2].
        -- destruct (UnmarshalJSON x (ProfileResponse.Devices r)) as [m|];
             [|rewrite store_field_failed; discriminate].
           intros Hr. destruct (IH _ Hr) as [Hu _]. split.
           ++ intros Hall. inversion Hall; subst. apply Hu. assumption.
           ++ intros Hall. inversion Hall; subst. simpl in *. congruence.
        -- intros Hr. destruct (IH _ Hr) as [Hu Hd]. split.
           ++ intros Hall. inversion Hall; subst. apply Hu. assumption.
           ++ intros Hall. inversion Hall; subst. apply Hd. assumption.
    + intros Hr. destruct (IH _ Hr) as [Hu Hd]. split.
      * intros Hall. inversion Hall; subst. apply Hu. assumption.
      * intros Hall. inversion Hall; subst. apply Hd. assumption.
Qed.

Lemma select_among (names : list string) (k n : string) :
  select names k = Some n -> In n names.
Proof.
  unfold select. destruct (find (String.eqb k) names) as [m|] eqn:Hex.
  - intros [= <-]. apply (List.find_some _ _ Hex).
  - intros Hf. apply (List.find_some _ _ Hf).
Qed.

Lemma statuses_fit (ms : list (string * json)) (m : gmap string string) :
  forallb (fun kv => ProfileResponse.is_text (snd kv)) ms = true ->
  is_Some (fold_left store_member ms (Some m)).
Proof.
  revert m. induction ms as [|[k x] ms IH]; intros m; simpl; [eauto|].
  intros Hx. apply andb_true_iff in Hx as [Hx Hms].
  destruct x; try discriminate Hx; simpl; apply IH, Hms.
Qed.

Lemma ProfileResponse_fits (kvs : list (string * json))
    (r : ProfileResponse.t) :
  Forall (fun kv => ProfileResponse.fits kv = true) kvs ->
  is_Some (fold_left (store_field ["profile_uuid"; "devices"]
                                  ProfileResponse.set) kvs (Some r)).
Proof.
  intros Hall. revert r.
  induction Hall as [|[k x] kvs Hkv _ IH]; intros r; simpl; [eauto|].
  unfold ProfileResponse.fits in Hkv. simpl in Hkv.
  destruct (select ["profile_uuid"; "devices"] k) as [n|] eqn:Hsel;
    [|apply IH].
  apply select_among in Hsel.
  destruct Hsel as [<-|[<-|[]]]; unfold ProfileResponse.set; simpl in Hkv |- *.
  - destruct x; try discriminate Hkv; simpl; apply IH.
  - destruct x as [| | | | |ms]; try discriminate Hkv; simpl; try apply IH.
    unfold UnmarshalJSON, map_unmarshal.
    destruct (statuses_fit ms (ProfileResponse.Devices r) Hkv) as [m ->].
    apply IH.
Qed.

(** A member the document does not have is no error.  A document whose
    members have the shape of the fields they select decodes as a
    [ProfileResponse], whether or not a member for the UUID or for the
    map is among them; the field no member selects is left as it was: on
    a fresh response the profile UUID stays empty if no member selects
    "profile_uuid", and the per-device map stays empty if no member
    selects "devices". *)
Theorem ProfileResponse_missing_members (kvs : list (string * json))
    (old : ProfileResponse.t)
    (Hfits : Forall (fun kv => ProfileResponse.fits kv = true) kvs) :
  exists r,
    UnmarshalJSON (JObject kvs) old = Some r
    /\ (Forall (fun kv => select ["profile_uuid"; "devices"] (fst kv)
                          <> Some "profile_uuid") kvs ->
        ProfileResponse.ProfileUUID r = ProfileResponse.ProfileUUID old)
    /\ (Forall (fun kv => select ["profile_uuid"; "devices"] (fst kv)
                          <> Some "devices") kvs ->
        ProfileResponse.Devices r = ProfileResponse.Devices old).
Proof.
  destruct (ProfileResponse_fits kvs old Hfits) as [r Hr].
  exists r. split; [exact Hr|]. exact (ProfileResponse_kept kvs old r Hr).
Qed.

Lemma ProfileResponse_missing_members_witness :
  exists r,
    UnmarshalJSON (JObject [("profile_uuid", JString "P1");
                            ("note", JNumber "1")])
                  (zero : ProfileResponse.t) = Some r
    /\ ProfileResponse.Devices r = ∅.
Proof.
  destruct (ProfileResponse_missing_members
              [("profile_uuid", JString "P1"); ("note", JNumber "1")]
              zero) as (r & Hr & _ & Hd).
  - repeat constructor.
  - exists r. split; [exact Hr|]. apply Hd.
    repeat constructor; intros H; vm_compute in H; discriminate H.
Defined.
